(** * Air-quality classification engine of Airsense (backend/basedatos.js)

    A shallow embedding of [clasificarCalidadAire] together with the
    fragment of ECMAScript its body relies on: primitive values, the
    [ToNumber] conversion behind the global [isNaN], the relational
    operator [<=], property reads on object literals (own properties,
    then the properties every object inherits from [Object.prototype])
    and template literals.

    Numbers.  A JavaScript number is a binary64 value.  The engine never
    computes with numbers, it only compares them with the integer
    literals of its table, so a finite number is represented by the
    rational it denotes; every binary64 value is such a rational and the
    comparisons of the language agree with the comparisons of [Q] on
    them.  Both zeros are the rational 0.

    Strings are sequences of UTF-8 bytes, as they stand in the source
    file.

    The parameters.  [contaminante] is a string and [tiempoHoras] a
    number, as the function documents them; [valor] is any primitive
    value, since the function itself guards against values that are not
    numbers.

    The diagnostic [console.log] calls of the function write to the
    process output only.  On these parameters they cannot throw (the one
    conversion they make is of [contaminante], a string, in a template
    literal), and they are left out of the model, which gives the
    returned object or the exception of a call. *)

From Stdlib Require Import ZArith QArith Qreduction Bool List String Ascii Lia.
From Stdlib Require Import DecimalString.
Import ListNotations.

Local Open Scope string_scope.
Local Open Scope Z_scope.

(** ** Values and completions *)

Module Js.

Inductive JsNumber : Type :=
| NaN
| NegInfinity
| Finite (q : Q)
| PosInfinity.

(** The primitive values of the language.  Objects are not modelled. *)
Inductive JsValue : Type :=
| JsUndefined
| JsNull
| JsBoolean (b : bool)
| JsNum (n : JsNumber)
| JsString (s : string)
| JsSymbol (description : string)
| JsBigInt (z : Z).

Inductive JsError : Type :=
| TypeError.

(** The outcome of evaluating an expression or a call: a value, or a
    thrown exception. *)
Inductive Completion (A : Type) : Type :=
| Normal (a : A)
| Throw (e : JsError).

Arguments Normal {A} a.
Arguments Throw {A} e.

Definition bind {A B : Type} (c : Completion A) (k : A -> Completion B)
  : Completion B :=
  match c with
  | Normal a => k a
  | Throw e => Throw e
  end.

Definition of_Z (z : Z) : JsNumber := Finite (inject_Z z).

Definition is_NaN (n : JsNumber) : bool :=
  match n with
  | NaN => true
  | _ => false
  end.

(** [Number::lessThan]: [None] stands for the [undefined] answer given
    when an operand is NaN. *)
Definition Number_lessThan (x y : JsNumber) : option bool :=
  match x, y with
  | NaN, _ => None
  | _, NaN => None
  | PosInfinity, _ => Some false
  | _, PosInfinity => Some true
  | _, NegInfinity => Some false
  | NegInfinity, _ => Some true
  | Finite a, Finite b => Some (negb (Qle_bool b a))
  end.

(** [x <= y] on numbers: the operator asks whether [y < x] and answers
    [false] when that is [true] or [undefined]. *)
Definition Number_lessOrEqual (x y : JsNumber) : bool :=
  match Number_lessThan y x with
  | Some false => true
  | _ => false
  end.

(** A property read [obj[key]] on an object literal answers the own
    property when there is one, and otherwise walks to [Object.prototype]. *)
Inductive Property (A : Type) : Type :=
| Undefined
| Own (a : A)
| Inherited (name : string).

Arguments Undefined {A}.
Arguments Own {A} a.
Arguments Inherited {A} name.

(** The property names of [Object.prototype] (ECMAScript with Annex B, as
    in Node.js).  Each one reads as a function, or as the prototype object
    itself for [__proto__]: a truthy value that is neither an array nor a
    table of the engine and has no property named by a number. *)
Definition ObjectPrototype_names : list string :=
  [ "constructor"; "__defineGetter__"; "__defineSetter__"; "hasOwnProperty";
    "__lookupGetter__"; "__lookupSetter__"; "isPrototypeOf";
    "propertyIsEnumerable"; "toString"; "valueOf"; "__proto__";
    "toLocaleString" ].

Fixpoint own_by_name {A : Type} (obj : list (string * A)) (k : string)
  : option A :=
  match obj with
  | [] => None
  | (k', a) :: rest => if String.eqb k' k then Some a else own_by_name rest k
  end.

Definition get_by_name {A : Type} (obj : list (string * A)) (k : string)
  : Property A :=
  match own_by_name obj k with
  | Some a => Own a
  | None =>
      if existsb (String.eqb k) ObjectPrototype_names
      then Inherited k
      else Undefined
  end.

(** A number used as a property key is first printed by
    [Number::toString].  Printing and reading back a number gives the
    number again, so the key of [h] is the name written by the integer
    literal [k] exactly when [h] is the number [k]. *)
Definition names_key (h : JsNumber) (k : Z) : bool :=
  match h with
  | Finite q => Qeq_bool q (inject_Z k)
  | _ => false
  end.

Fixpoint own_by_number {A : Type} (obj : list (Z * A)) (h : JsNumber)
  : option A :=
  match obj with
  | [] => None
  | (k, a) :: rest => if names_key h k then Some a else own_by_number rest h
  end.

(** The printed form of a number starts with a digit, a minus sign, or is
    [NaN] or [Infinity]: it is never one of [ObjectPrototype_names], so a
    numeric key finds an own property or nothing. *)
Definition get_by_number {A : Type} (obj : list (Z * A)) (h : JsNumber)
  : Property A :=
  match own_by_number obj h with
  | Some a => Own a
  | None => Undefined
  end.

(** [Number.MAX_SAFE_INTEGER]: up to it every integer is a number and is
    printed by its decimal digits. *)
Definition MAX_SAFE_INTEGER : Z := 9007199254740991.

Definition safe_integer (q : Q) : option Z :=
  let r := Qred q in
  if (Pos.eqb (Qden r) 1 && (Z.abs (Qnum r) <=? MAX_SAFE_INTEGER))%bool
  then Some (Qnum r)
  else None.

Definition decimal (z : Z) : string := NilZero.string_of_int (Z.to_int z).

End Js.

Import Js.

Declare Scope completion_scope.
Delimit Scope completion_scope with completion.
Notation "x <- c ;; k" := (bind c (fun x => k))
  (at level 61, c at next level, right associativity) : completion_scope.

(** ** The result of a classification *)

(** [resultado.limites_oms]. *)
Record LimitesOms : Type := {
  buena : Z;
  regular : Z;
  tiempo_horas : JsNumber;
  fuente : string
}.

(** The object returned by the engine; [limites_oms] is [None] when the
    object has no such property. *)
Record Clasificacion : Type := {
  nivel : string;
  color : string;
  descripcion : string;
  limites_oms : option LimitesOms
}.

Definition set_limites_oms (r : Clasificacion) (l : LimitesOms) : Clasificacion :=
  {| nivel := nivel r; color := color r; descripcion := descripcion r;
     limites_oms := Some l |}.

(** The table [limites] of the function: pollutant, then exposure hours,
    then the pair [[limiteBuena, limiteRegular]]. *)
Definition limites : list (string * list (Z * (Z * Z))) :=
  [ ("O3",    [ (1, (100, 160)); (8, (60, 100)) ]);
    ("PM10",  [ (1, (50, 100)); (24, (45, 75)) ]);
    ("PM2.5", [ (1, (15, 25)); (24, (15, 25)) ]);
    ("SO2",   [ (1, (100, 196)); (3, (100, 250)); (24, (40, 125)) ]);
    ("NO2",   [ (1, (200, 360)); (24, (25, 50)) ]);
    ("CO",    [ (1, (4000, 10000)); (8, (7000, 10000)) ]);
    ("NO",    [ (1, (100, 200)) ]) ].

Definition sin_datos (texto : string) : Clasificacion :=
  {| nivel := "Sin datos"; color := "#9E9E9E"; descripcion := texto;
     limites_oms := None |}.

Definition texto_sin_valor : string :=
  "No hay información disponible para esta medición".

Definition texto_buena : string :=
  "La calidad del aire cumple con los estándares de la OMS y no representa riesgo para la salud".

Definition texto_regular : string :=
  "La calidad del aire supera las recomendaciones de la OMS. Puede afectar a personas sensibles (niños, ancianos, personas con enfermedades respiratorias)".

Definition texto_mala : string :=
  "La calidad del aire supera significativamente los límites seguros de la OMS y puede afectar la salud de toda la población".

(** ** The engine *)

Section Engine.

(** The two conversions of the language whose answer depends on the
    binary64 rounding of a decimal numeral are taken from the host:
    [StringToNumber], which reads a string as a number (NaN when it is
    not a numeral), and the digit generation of [Number::toString] for
    the numbers that are not safe integers. *)
Variable StringToNumber : string -> JsNumber.
Variable DigitsToString : Q -> string.

Definition ToNumber (v : JsValue) : Completion JsNumber :=
  match v with
  | JsUndefined => Normal NaN
  | JsNull => Normal (of_Z 0)
  | JsBoolean b => Normal (of_Z (if b then 1 else 0))
  | JsNum n => Normal n
  | JsString s => Normal (StringToNumber s)
  | JsSymbol _ => Throw TypeError
  | JsBigInt _ => Throw TypeError
  end.

(** The global [isNaN]. *)
Definition isNaN (v : JsValue) : Completion bool :=
  (n <- ToNumber v ;; Normal (is_NaN n))%completion.

(** [v <= limite] for a numeric literal [limite]: a BigInt is compared by
    its mathematical value, anything else is converted by [ToNumber]. *)
Definition lessOrEqual (v : JsValue) (limite : Z) : Completion bool :=
  match v with
  | JsBigInt z => Normal (Number_lessOrEqual (of_Z z) (of_Z limite))
  | _ => (n <- ToNumber v ;; Normal (Number_lessOrEqual n (of_Z limite)))%completion
  end.

Definition NumberToString (n : JsNumber) : string :=
  match n with
  | NaN => "NaN"
  | NegInfinity => "-Infinity"
  | PosInfinity => "Infinity"
  | Finite q =>
      match safe_integer q with
      | Some z => decimal z
      | None => DigitsToString q
      end
  end.

(** [valor === null || valor === undefined || isNaN(valor)]. *)
Definition valor_invalido (valor : JsValue) : Completion bool :=
  match valor with
  | JsNull => Normal true
  | JsUndefined => Normal true
  | _ => isNaN valor
  end.

Definition texto_sin_contaminante (contaminante : string) : string :=
  "No hay parámetros de referencia para " ++ contaminante.

Definition texto_sin_tiempo (contaminante : string) (tiempoHoras : JsNumber)
  : string :=
  "No hay parámetros para " ++ contaminante ++ " con "
    ++ NumberToString tiempoHoras ++ "h de exposición".

(** [rangosContaminante[tiempoHoras]]: on a table of the engine, or on a
    value inherited from [Object.prototype]. *)
Definition rangos_de (rangosContaminante : Property (list (Z * (Z * Z))))
    (tiempoHoras : JsNumber) : Property (Z * Z) :=
  match rangosContaminante with
  | Own tabla => get_by_number tabla tiempoHoras
  | _ => Undefined
  end.

Definition clasificarCalidadAire (contaminante : string) (valor : JsValue)
    (tiempoHoras : JsNumber) : Completion Clasificacion :=
  (invalido <- valor_invalido valor ;;
   if invalido then Normal (sin_datos texto_sin_valor)
   else
     match get_by_name limites contaminante with
     | Undefined => Normal (sin_datos (texto_sin_contaminante contaminante))
     | rangosContaminante =>
         match rangos_de rangosContaminante tiempoHoras with
         | Own (limiteBuena, limiteRegular) =>
             (* both comparisons are evaluated for the trace before the
                branch is taken *)
             esBuena <- lessOrEqual valor limiteBuena ;;
             esRegular <- lessOrEqual valor limiteRegular ;;
             let resultado :=
               if esBuena then
                 {| nivel := "Buena"; color := "#00E400";
                    descripcion := texto_buena; limites_oms := None |}
               else if esRegular then
                 {| nivel := "Regular"; color := "#FFFF00";
                    descripcion := texto_regular; limites_oms := None |}
               else
                 {| nivel := "Mala"; color := "#FF0000";
                    descripcion := texto_mala; limites_oms := None |} in
             Normal (set_limites_oms resultado
                       {| buena := limiteBuena; regular := limiteRegular;
                          tiempo_horas := tiempoHoras; fuente := "OMS 2021" |})
         | Undefined =>
             Normal (sin_datos (texto_sin_tiempo contaminante tiempoHoras))
         | Inherited _ =>
             (* a truthy value that is not iterable: the array pattern throws *)
             Throw TypeError
         end
     end)%completion.

End Engine.

(** ** Vocabulary of the specification *)

(** The four tiers of the specification and the [nivel] that stands for
    each in the returned object. *)
Inductive Tier : Type :=
| Good
| Moderate
| Poor
| Unavailable.

Definition tier_of_nivel (s : string) : option Tier :=
  if String.eqb s "Buena" then Some Good
  else if String.eqb s "Regular" then Some Moderate
  else if String.eqb s "Mala" then Some Poor
  else if String.eqb s "Sin datos" then Some Unavailable
  else None.

Definition tier (r : Clasificacion) : option Tier := tier_of_nivel (nivel r).

(** The tier of a call, when the call returns. *)
Definition tier_of (c : Completion Clasificacion) : option Tier :=
  match c with
  | Normal r => tier r
  | Throw _ => None
  end.

(** The rows of [limites]: pollutant, hours, [limiteBuena], [limiteRegular]. *)
Definition entradas : list (string * Z * Z * Z) :=
  flat_map
    (fun fila : string * list (Z * (Z * Z)) =>
       map (fun celda : Z * (Z * Z) =>
              (fst fila, fst celda, fst (snd celda), snd (snd celda)))
           (snd fila))
    limites.

(** The reference threshold table as the specification prints it
    (section 6): pollutant, window in hours, Good limit, Moderate limit. *)
Definition spec_threshold_table : list (string * Z * Z * Z) :=
  [ ("O3", 1, 100, 160);   ("O3", 8, 60, 100);
    ("PM10", 1, 50, 100);  ("PM10", 24, 45, 75);
    ("PM2.5", 1, 15, 25);  ("PM2.5", 24, 15, 25);
    ("SO2", 1, 100, 196);  ("SO2", 3, 100, 250);  ("SO2", 24, 40, 125);
    ("NO2", 1, 200, 360);  ("NO2", 24, 25, 50);
    ("CO", 1, 4000, 10000); ("CO", 8, 7000, 10000);
    ("NO", 1, 100, 200) ].

(** [value <= limit] and [value > limit] as the specification means them,
    on the extended line; neither holds of NaN. *)
Definition le_limit (n : JsNumber) (k : Z) : Prop :=
  match n with
  | NaN => False
  | NegInfinity => True
  | Finite q => (q <= inject_Z k)%Q
  | PosInfinity => False
  end.

Definition gt_limit (n : JsNumber) (k : Z) : Prop :=
  match n with
  | NaN => False
  | NegInfinity => False
  | Finite q => (inject_Z k < q)%Q
  | PosInfinity => True
  end.

(** A text names a word when the word occurs in it. *)
Definition names (word text : string) : Prop :=
  exists before after, text = before ++ word ++ after.

(** The values on which [isNaN] itself fails. *)
Definition convertible (v : JsValue) : bool :=
  match v with
  | JsSymbol _ => false
  | JsBigInt _ => false
  | _ => true
  end.

(** The object assembled by the comparison branch of the engine. *)
Definition resultado_de (esBuena esRegular : bool) (limiteBuena limiteRegular : Z)
    (tiempoHoras : JsNumber) : Clasificacion :=
  set_limites_oms
    (if esBuena then
       {| nivel := "Buena"; color := "#00E400";
          descripcion := texto_buena; limites_oms := None |}
     else if esRegular then
       {| nivel := "Regular"; color := "#FFFF00";
          descripcion := texto_regular; limites_oms := None |}
     else
       {| nivel := "Mala"; color := "#FF0000";
          descripcion := texto_mala; limites_oms := None |})
    {| buena := limiteBuena; regular := limiteRegular;
       tiempo_horas := tiempoHoras; fuente := "OMS 2021" |}.

(** The five shapes a call can take: an exception, one of the three
    objects without data, or a classified object built from a row of the
    table. *)
Inductive Forma (DigitsToString : Q -> string) (c : string) (h : JsNumber)
  : Completion Clasificacion -> Prop :=
| forma_throw :
    Forma DigitsToString c h (Throw TypeError)
| forma_sin_valor :
    Forma DigitsToString c h (Normal (sin_datos texto_sin_valor))
| forma_sin_contaminante :
    own_by_name limites c = None ->
    Forma DigitsToString c h (Normal (sin_datos (texto_sin_contaminante c)))
| forma_sin_tiempo :
    Forma DigitsToString c h
      (Normal (sin_datos (texto_sin_tiempo DigitsToString c h)))
| forma_clasificada (tabla : list (Z * (Z * Z))) (g m : Z) (b1 b2 : bool) :
    own_by_name limites c = Some tabla ->
    own_by_number tabla h = Some (g, m) ->
    Forma DigitsToString c h (Normal (resultado_de b1 b2 g m h)).

(** A host for the closed examples.  It is a stand-in and not the
    conversions of the language: it reads a string of decimal digits with
    an optional minus sign as that integer and any other string as NaN,
    and prints a number that is not a safe integer as a fraction.  The
    examples pass no string as the value and whole hours, so that neither
    conversion is consulted and every host gives the same result (see
    [clasificar_host_independent]). *)
Definition StringToNumber_enteros (s : string) : JsNumber :=
  match NilZero.int_of_string s with
  | Some d => of_Z (Z.of_int d)
  | None => NaN
  end.

Definition DigitsToString_fraccion (q : Q) : string :=
  decimal (Qnum q) ++ "/" ++ decimal (Zpos (Qden q)).

Definition clasificar_ejemplo : string -> JsValue -> JsNumber -> Completion Clasificacion :=
  clasificarCalidadAire StringToNumber_enteros DigitsToString_fraccion.

(** ** Properties of the language fragment *)

Lemma append_assoc (a b c : string) : (a ++ b) ++ c = a ++ b ++ c.
Proof.
  induction a as [|x a IH]; simpl; [reflexivity|].
  now rewrite IH.
Qed.

Lemma append_nil_r (a : string) : a ++ "" = a.
Proof.
  induction a as [|x a IH]; simpl; [reflexivity|].
  now rewrite IH.
Qed.

Lemma names_key_inj (h : JsNumber) (k k' : Z) :
  names_key h k = true -> names_key h k' = true -> k = k'.
Proof.
  destruct h as [| |q|]; simpl; try discriminate.
  intros H1 H2.
  apply Qeq_bool_iff in H1, H2.
  apply inject_Z_injective.
  now rewrite <- H1, <- H2.
Qed.

Lemma names_key_of_Z (k : Z) : names_key (of_Z k) k = true.
Proof. apply Qeq_bool_refl. Qed.

Lemma own_by_name_In {A : Type} (obj : list (string * A)) (c : string) (a : A) :
  NoDup (map fst obj) -> In (c, a) obj -> own_by_name obj c = Some a.
Proof.
  induction obj as [|[c' a'] obj IH]; simpl; [tauto|].
  intros Hnd [Heq|Hin]; inversion Hnd as [|? ? Hnotin Hnd']; subst.
  - inversion Heq; subst. now rewrite String.eqb_refl.
  - destruct (String.eqb_spec c' c) as [->|_].
    + exfalso. apply Hnotin. apply in_map_iff. now exists (c, a).
    + now apply IH.
Qed.

Lemma own_by_name_Some {A : Type} (obj : list (string * A)) (c : string) (a : A) :
  own_by_name obj c = Some a -> In (c, a) obj.
Proof.
  induction obj as [|[c' a'] obj IH]; simpl; [discriminate|].
  destruct (String.eqb_spec c' c) as [->|_].
  - intros H; inversion H; subst. now left.
  - intros H. right. now apply IH.
Qed.

Lemma own_by_number_In {A : Type} (tabla : list (Z * A)) (h : JsNumber)
    (k : Z) (a : A) :
  NoDup (map fst tabla) -> In (k, a) tabla -> names_key h k = true ->
  own_by_number tabla h = Some a.
Proof.
  induction tabla as [|[k' a'] tabla IH]; simpl; [tauto|].
  intros Hnd [Heq|Hin] Hk; inversion Hnd as [|? ? Hnotin Hnd']; subst.
  - inversion Heq; subst. now rewrite Hk.
  - destruct (names_key h k') eqn:Hk'.
    + exfalso. apply Hnotin.
      rewrite (names_key_inj h k' k Hk' Hk).
      apply in_map_iff. now exists (k, a).
    + now apply IH.
Qed.

Lemma own_by_number_Some {A : Type} (tabla : list (Z * A)) (h : JsNumber) (a : A) :
  own_by_number tabla h = Some a ->
  exists k, In (k, a) tabla /\ names_key h k = true.
Proof.
  induction tabla as [|[k' a'] tabla IH]; simpl; [discriminate|].
  destruct (names_key h k') eqn:Hk'.
  - intros H; inversion H; subst. exists k'. auto.
  - intros H. destruct (IH H) as [k [Hin Hk]]. exists k. auto.
Qed.

Lemma own_by_number_None {A : Type} (tabla : list (Z * A)) (h : JsNumber) :
  (forall k a, In (k, a) tabla -> names_key h k = false) ->
  own_by_number tabla h = None.
Proof.
  induction tabla as [|[k' a'] tabla IH]; simpl; [reflexivity|].
  intros H. rewrite (H k' a') by now left.
  apply IH. intros k a Hin. apply (H k a). now right.
Qed.

Lemma Number_lessOrEqual_true (n : JsNumber) (k : Z) :
  Number_lessOrEqual n (of_Z k) = true <-> le_limit n k.
Proof.
  destruct n as [| |q|]; unfold Number_lessOrEqual; simpl;
    try (split; [discriminate|tauto]); try tauto.
  rewrite <- Qle_bool_iff.
  destruct (Qle_bool q (inject_Z k)); simpl; split; auto; discriminate.
Qed.

Lemma Number_lessOrEqual_false (n : JsNumber) (k : Z) :
  is_NaN n = false ->
  Number_lessOrEqual n (of_Z k) = false <-> gt_limit n k.
Proof.
  destruct n as [| |q|]; unfold Number_lessOrEqual; simpl; intros Hn;
    try discriminate; try (split; [discriminate|tauto]); try tauto.
  destruct (Qle_bool q (inject_Z k)) eqn:E; simpl.
  - apply Qle_bool_iff in E. split; [discriminate|].
    intros H. exfalso. now apply (Qlt_not_le _ _ H).
  - split; [intros _|reflexivity].
    apply Qnot_le_lt. intros H. apply Qle_bool_iff in H. congruence.
Qed.

Lemma le_limit_mono (n : JsNumber) (g m : Z) :
  g <= m -> le_limit n g -> le_limit n m.
Proof.
  destruct n as [| |q|]; simpl; auto.
  intros Hgm H. apply (Qle_trans _ _ _ H). now rewrite <- Zle_Qle.
Qed.

Lemma le_gt_limit_excl (n : JsNumber) (k : Z) :
  le_limit n k -> gt_limit n k -> False.
Proof.
  destruct n as [| |q|]; simpl; auto.
  intros H1 H2. now apply (Qlt_not_le _ _ H2).
Qed.

(** ** Properties of the table *)

Lemma entradas_unfolded : entradas = spec_threshold_table.
Proof. reflexivity. Qed.

Lemma limites_names_nodup : NoDup (map fst limites).
Proof.
  simpl. repeat constructor; simpl; intuition discriminate.
Qed.

Lemma limites_hours_nodup (c : string) (tabla : list (Z * (Z * Z))) :
  In (c, tabla) limites -> NoDup (map fst tabla).
Proof.
  simpl. intros H.
  repeat (destruct H as [H|H];
          [inversion H; subst; simpl;
           repeat constructor; simpl; intuition discriminate|]).
  contradiction.
Qed.

Lemma In_entradas (c : string) (k g m : Z) :
  In (c, k, g, m) entradas <->
  exists tabla, In (c, tabla) limites /\ In (k, (g, m)) tabla.
Proof.
  unfold entradas. rewrite in_flat_map. split.
  - intros [[c' tabla] [Hin Hmap]]. apply in_map_iff in Hmap.
    destruct Hmap as [[k' [g' m']] [Heq Hin']]. simpl in Heq.
    inversion Heq; subst. now exists tabla.
  - intros [tabla [Hin Hin']]. exists (c, tabla). split; [assumption|].
    apply in_map_iff. now exists (k, (g, m)).
Qed.

(** A row of the table is found by the two property reads of the engine,
    and the reads find nothing else. *)
Lemma lookup_entrada (c : string) (k g m : Z) (h : JsNumber) :
  In (c, k, g, m) entradas -> names_key h k = true ->
  exists tabla,
    own_by_name limites c = Some tabla /\ own_by_number tabla h = Some (g, m).
Proof.
  intros Hin Hk. apply In_entradas in Hin. destruct Hin as [tabla [Hc Hh]].
  exists tabla. split.
  - apply own_by_name_In; [apply limites_names_nodup|assumption].
  - apply (own_by_number_In tabla h k); [|assumption|assumption].
    now apply (limites_hours_nodup c).
Qed.

Lemma lookup_entrada_inv (c : string) (tabla : list (Z * (Z * Z)))
    (g m : Z) (h : JsNumber) :
  own_by_name limites c = Some tabla -> own_by_number tabla h = Some (g, m) ->
  exists k, In (c, k, g, m) entradas /\ names_key h k = true.
Proof.
  intros Hc Hh. apply own_by_name_Some in Hc.
  apply own_by_number_Some in Hh. destruct Hh as [k [Hin Hk]].
  exists k. split; [|assumption]. apply In_entradas. now exists tabla.
Qed.

Lemma entradas_ordered (c : string) (k g m : Z) :
  In (c, k, g, m) entradas -> 0 <= g < m.
Proof.
  rewrite entradas_unfolded. simpl. intros H.
  repeat (destruct H as [H|H]; [inversion H; subst; lia|]).
  contradiction.
Qed.

Lemma tier_sin_datos (texto : string) : tier (sin_datos texto) = Some Unavailable.
Proof. reflexivity. Qed.

Lemma tier_resultado_de (b1 b2 : bool) (g m : Z) (h : JsNumber) :
  tier (resultado_de b1 b2 g m h)
  = Some (if b1 then Good else if b2 then Moderate else Poor).
Proof. destruct b1, b2; reflexivity. Qed.

(** ** Properties of the engine *)

Section EngineProperties.

Variable StringToNumber : string -> JsNumber.
Variable DigitsToString : Q -> string.

Local Abbreviation clasificar :=
  (clasificarCalidadAire StringToNumber DigitsToString).
Local Abbreviation sin_tiempo := (texto_sin_tiempo DigitsToString).

(** The function, with its property reads spelled out. *)
Lemma clasificar_unfold (c : string) (v : JsValue) (h : JsNumber) :
  clasificar c v h =
  match valor_invalido StringToNumber v with
  | Throw e => Throw e
  | Normal true => Normal (sin_datos texto_sin_valor)
  | Normal false =>
      match own_by_name limites c with
      | None =>
          if existsb (String.eqb c) ObjectPrototype_names
          then Normal (sin_datos (sin_tiempo c h))
          else Normal (sin_datos (texto_sin_contaminante c))
      | Some tabla =>
          match own_by_number tabla h with
          | None => Normal (sin_datos (sin_tiempo c h))
          | Some (g, m) =>
              match lessOrEqual StringToNumber v g with
              | Throw e => Throw e
              | Normal b1 =>
                  match lessOrEqual StringToNumber v m with
                  | Throw e => Throw e
                  | Normal b2 => Normal (resultado_de b1 b2 g m h)
                  end
              end
          end
      end
  end.
Proof.
  unfold clasificarCalidadAire, bind, get_by_name, rangos_de, get_by_number.
  destruct (valor_invalido StringToNumber v) as [[|]|e]; try reflexivity.
  destruct (own_by_name limites c) as [tabla|].
  - destruct (own_by_number tabla h) as [[g m]|]; [|reflexivity].
    destruct (lessOrEqual StringToNumber v g) as [b1|e]; [|reflexivity].
    destruct (lessOrEqual StringToNumber v m) as [b2|e]; reflexivity.
  - destruct (existsb (String.eqb c) ObjectPrototype_names); reflexivity.
Qed.

Lemma valor_invalido_throws (v : JsValue) :
  convertible v = false -> valor_invalido StringToNumber v = Throw TypeError.
Proof. destruct v; simpl; intros H; try discriminate H; reflexivity. Qed.

(** On the values [isNaN] accepts, the guard answers, and when it lets the
    value through every later comparison is a comparison of numbers. *)
Lemma valor_invalido_convertible (v : JsValue) :
  convertible v = true ->
  exists b, valor_invalido StringToNumber v = Normal b /\
    (b = false ->
     exists n, ToNumber StringToNumber v = Normal n /\ is_NaN n = false /\
       forall k, lessOrEqual StringToNumber v k
                 = Normal (Number_lessOrEqual n (of_Z k))).
Proof.
  destruct v as [| |b|n|s|d|z]; simpl; try discriminate; intros _.
  - exists true. split; [reflexivity|discriminate].
  - exists true. split; [reflexivity|discriminate].
  - exists false. split; [reflexivity|]. intros _.
    exists (of_Z (if b then 1 else 0)).
    split; [reflexivity|]. split; [now destruct b|reflexivity].
  - exists (is_NaN n). split; [reflexivity|]. intros Hn.
    exists n. split; [reflexivity|]. split; [assumption|reflexivity].
  - exists (is_NaN (StringToNumber s)). split; [reflexivity|]. intros Hn.
    exists (StringToNumber s).
    split; [reflexivity|]. split; [assumption|reflexivity].
Qed.

Lemma clasificar_forma (c : string) (v : JsValue) (h : JsNumber) :
  Forma DigitsToString c h (clasificar c v h).
Proof.
  rewrite clasificar_unfold.
  destruct (convertible v) eqn:Hv.
  - destruct (valor_invalido_convertible v Hv) as [b [-> Hb]].
    destruct b; [constructor|].
    destruct (Hb eq_refl) as [n [_ [_ Hle]]].
    destruct (own_by_name limites c) as [tabla|] eqn:Hc.
    + destruct (own_by_number tabla h) as [[g m]|] eqn:Hh; [|constructor].
      rewrite !Hle. now apply forma_clasificada with (tabla := tabla).
    + destruct (existsb (String.eqb c) ObjectPrototype_names);
        now constructor.
  - rewrite (valor_invalido_throws v Hv). constructor.
Qed.

Lemma clasificar_numero (c : string) (n : JsNumber) (h : JsNumber)
    (tabla : list (Z * (Z * Z))) (g m : Z) :
  is_NaN n = false ->
  own_by_name limites c = Some tabla -> own_by_number tabla h = Some (g, m) ->
  clasificar c (JsNum n) h
  = Normal (resultado_de (Number_lessOrEqual n (of_Z g))
                         (Number_lessOrEqual n (of_Z m)) g m h).
Proof.
  intros Hn Hc Hh. rewrite clasificar_unfold, Hc, Hh.
  cbn [valor_invalido isNaN ToNumber lessOrEqual bind].
  now rewrite Hn.
Qed.

Lemma clasificar_entrada (c : string) (k g m : Z) (n h : JsNumber) :
  In (c, k, g, m) entradas -> names_key h k = true -> is_NaN n = false ->
  clasificar c (JsNum n) h
  = Normal (resultado_de (Number_lessOrEqual n (of_Z g))
                         (Number_lessOrEqual n (of_Z m)) g m h).
Proof.
  intros Hin Hk Hn.
  destruct (lookup_entrada c k g m h Hin Hk) as [tabla [Hc Hh]].
  now apply clasificar_numero with (tabla := tabla).
Qed.

Lemma clasificar_throws (c : string) (v : JsValue) (h : JsNumber) :
  convertible v = false -> clasificar c v h = Throw TypeError.
Proof.
  intros Hv. rewrite clasificar_unfold.
  now rewrite (valor_invalido_throws v Hv).
Qed.

Lemma own_by_name_None {A : Type} (obj : list (string * A)) (c : string) :
  ~ In c (map fst obj) -> own_by_name obj c = None.
Proof.
  induction obj as [|[c' a'] obj IH]; simpl; [reflexivity|].
  intros H. destruct (String.eqb_spec c' c) as [->|_]; [tauto|].
  apply IH. tauto.
Qed.

Lemma sin_valor_differs_sin_contaminante (c : string) :
  texto_sin_valor <> texto_sin_contaminante c.
Proof. unfold texto_sin_valor, texto_sin_contaminante. simpl. discriminate. Qed.

Lemma sin_valor_differs_sin_tiempo (c : string) (h : JsNumber) :
  texto_sin_valor <> sin_tiempo c h.
Proof. unfold texto_sin_valor, texto_sin_tiempo. simpl. discriminate. Qed.

Lemma names_sin_contaminante (c : string) : names c (texto_sin_contaminante c).
Proof.
  exists "No hay parámetros de referencia para ", "".
  unfold texto_sin_contaminante. now rewrite append_nil_r.
Qed.

Lemma names_sin_tiempo_contaminante (c : string) (h : JsNumber) :
  names c (sin_tiempo c h).
Proof.
  exists "No hay parámetros para ",
         (" con " ++ NumberToString DigitsToString h ++ "h de exposición").
  reflexivity.
Qed.

Lemma names_sin_tiempo_horas (c : string) (h : JsNumber) :
  names (NumberToString DigitsToString h) (sin_tiempo c h).
Proof.
  exists ("No hay parámetros para " ++ c ++ " con "), "h de exposición".
  unfold texto_sin_tiempo. now rewrite !append_assoc.
Qed.

(** C1: for a row (pollutant, hours, goodLimit, moderateLimit) of the table
    and a number that is not NaN, the tier is Good exactly when
    value <= goodLimit, Moderate exactly when goodLimit < value <=
    moderateLimit, and Poor exactly when value > moderateLimit; both
    limits are inclusive: the value goodLimit is Good and the value
    moderateLimit is Moderate. *)
Theorem tier_follows_limits (c : string) (k g m : Z) (n h : JsNumber) :
  In (c, k, g, m) entradas -> names_key h k = true -> is_NaN n = false ->
  (tier_of (clasificar c (JsNum n) h) = Some Good <-> le_limit n g) /\
  (tier_of (clasificar c (JsNum n) h) = Some Moderate
   <-> gt_limit n g /\ le_limit n m) /\
  (tier_of (clasificar c (JsNum n) h) = Some Poor <-> gt_limit n m) /\
  tier_of (clasificar c (JsNum (of_Z g)) h) = Some Good /\
  tier_of (clasificar c (JsNum (of_Z m)) h) = Some Moderate.
Proof.
  intros Hin Hk Hn.
  destruct (entradas_ordered c k g m Hin) as [_ Hgm].
  rewrite (clasificar_entrada c k g m n h Hin Hk Hn).
  rewrite (clasificar_entrada c k g m (of_Z g) h Hin Hk eq_refl).
  rewrite (clasificar_entrada c k g m (of_Z m) h Hin Hk eq_refl).
  cbn [tier_of]. rewrite !tier_resultado_de.
  assert (Hgg : Number_lessOrEqual (of_Z g) (of_Z g) = true).
  { apply Number_lessOrEqual_true. simpl. apply Qle_refl. }
  assert (Hmg : Number_lessOrEqual (of_Z m) (of_Z g) = false).
  { apply Number_lessOrEqual_false; [reflexivity|].
    simpl. now rewrite <- Zlt_Qlt. }
  assert (Hmm : Number_lessOrEqual (of_Z m) (of_Z m) = true).
  { apply Number_lessOrEqual_true. simpl. apply Qle_refl. }
  rewrite Hgg, Hmg, Hmm.
  pose proof (Number_lessOrEqual_true n g) as Tg.
  pose proof (Number_lessOrEqual_true n m) as Tm.
  pose proof (Number_lessOrEqual_false n g Hn) as Fg.
  pose proof (Number_lessOrEqual_false n m Hn) as Fm.
  pose proof (le_gt_limit_excl n g) as Xg.
  pose proof (le_gt_limit_excl n m) as Xm.
  pose proof (le_limit_mono n g m (Z.lt_le_incl _ _ Hgm)) as Mono.
  destruct (Number_lessOrEqual n (of_Z g)), (Number_lessOrEqual n (of_Z m));
    intuition congruence.
Qed.

Lemma clasificar_returns (c : string) (v : JsValue) (h : JsNumber) :
  convertible v = true ->
  exists r, clasificar c v h = Normal r /\ Forma DigitsToString c h (Normal r).
Proof.
  intros Hv. pose proof (clasificar_forma c v h) as F.
  destruct (clasificar c v h) as [r|e] eqn:E; [now exists r|].
  exfalso. rewrite clasificar_unfold in E.
  destruct (valor_invalido_convertible v Hv) as [b [Hb Hle]].
  rewrite Hb in E. destruct b; [discriminate|].
  destruct (Hle eq_refl) as [n [_ [_ Hcmp]]].
  destruct (own_by_name limites c) as [tabla|].
  - destruct (own_by_number tabla h) as [[g m]|]; [|discriminate].
    rewrite !Hcmp in E. discriminate.
  - destruct (existsb (String.eqb c) ObjectPrototype_names); discriminate.
Qed.

Lemma le_limit_not_NaN (n : JsNumber) (k : Z) : le_limit n k -> is_NaN n = false.
Proof. destruct n; simpl; tauto. Qed.

(** C2: the call never throws.  For every pollutant, in the table or not,
    every exposure window and every value the function can be given (a
    number, NaN and the infinities included, null, undefined, a boolean
    or a string, numeric or not) it returns an object with one of the
    four tiers, one of the four colors and a non-empty description, and
    the tier is Unavailable whenever no row of the table is for the
    pollutant and window.  The two kinds of primitive value left out,
    Symbol and BigInt, do not reach the function: it is not exported,
    and its one caller passes the result of [parseFloat], a number. *)
Theorem clasificar_returns_on_convertible (c : string) (v : JsValue) (h : JsNumber) :
  convertible v = true ->
  exists r,
    clasificar c v h = Normal r /\
    (exists t, tier r = Some t) /\
    In (color r) ["#00E400"; "#FFFF00"; "#FF0000"; "#9E9E9E"] /\
    descripcion r <> "" /\
    ((forall k g m, In (c, k, g, m) entradas -> names_key h k = false) ->
     tier r = Some Unavailable).
Proof.
  intros Hv. destruct (clasificar_returns c v h Hv) as [r [E F]].
  exists r. split; [assumption|].
  inversion F as [| |Hc|
                  |tabla g m b1 b2 Hc Hh]; subst; clear F.
  - repeat split; [now exists Unavailable|simpl; tauto|discriminate].
  - repeat split; [now exists Unavailable|simpl; tauto|discriminate].
  - repeat split; [now exists Unavailable|simpl; tauto|discriminate].
  - split; [rewrite tier_resultado_de; eauto|].
    split; [destruct b1, b2; simpl; tauto|].
    split; [destruct b1, b2; discriminate|].
    intros Hno. exfalso.
    destruct (lookup_entrada_inv c tabla g m h Hc Hh) as [k [Hin Hk]].
    rewrite (Hno k g m Hin) in Hk. discriminate.
Qed.

(** C3: when the value is null, undefined or NaN, whatever the pollutant
    and the exposure window, the call returns the tier Unavailable with
    the text that no information is available for the measurement, and
    the object has no [limites_oms]. *)
Theorem missing_value_unavailable (c : string) (h : JsNumber) :
  clasificar c JsNull h = Normal (sin_datos texto_sin_valor) /\
  clasificar c JsUndefined h = Normal (sin_datos texto_sin_valor) /\
  clasificar c (JsNum NaN) h = Normal (sin_datos texto_sin_valor) /\
  tier (sin_datos texto_sin_valor) = Some Unavailable /\
  descripcion (sin_datos texto_sin_valor)
  = "No hay información disponible para esta medición" /\
  limites_oms (sin_datos texto_sin_valor) = None.
Proof. repeat split. Qed.

(** C4: for a number that is not NaN and a pollutant that is no key of the
    table, whatever the exposure window, the call returns the tier
    Unavailable without [limites_oms]; its description names the
    pollutant and is not the missing-value text.  Unless the pollutant is
    a property name inherited from Object.prototype, the description is
    the text for a pollutant without reference parameters. *)
Theorem unknown_pollutant_unavailable (c : string) (n h : JsNumber) :
  ~ In c (map fst limites) -> is_NaN n = false ->
  exists r,
    clasificar c (JsNum n) h = Normal r /\
    tier r = Some Unavailable /\
    limites_oms r = None /\
    names c (descripcion r) /\
    descripcion r <> texto_sin_valor /\
    (existsb (String.eqb c) ObjectPrototype_names = false ->
     descripcion r = "No hay parámetros de referencia para " ++ c).
Proof.
  intros Hc Hn. apply own_by_name_None in Hc.
  rewrite clasificar_unfold, Hc.
  cbn [valor_invalido isNaN ToNumber bind]. rewrite Hn.
  destruct (existsb (String.eqb c) ObjectPrototype_names).
  - exists (sin_datos (sin_tiempo c h)).
    split; [reflexivity|]. split; [reflexivity|]. split; [reflexivity|].
    split; [apply names_sin_tiempo_contaminante|].
    split; [|discriminate].
    intros H. symmetry in H. revert H. apply sin_valor_differs_sin_tiempo.
  - exists (sin_datos (texto_sin_contaminante c)).
    split; [reflexivity|]. split; [reflexivity|]. split; [reflexivity|].
    split; [apply names_sin_contaminante|].
    split; [|reflexivity].
    intros H. symmetry in H. revert H.
    apply sin_valor_differs_sin_contaminante.
Qed.

(** C5: for a number that is not NaN and a pollutant of the table whose
    windows do not include the given hours (a window matches only when
    the hours are the very number of the key), the call returns the tier
    Unavailable with a description that names the pollutant and the
    hours; in particular O3 at 50 over 5 hours is Unavailable. *)
Theorem unsupported_window_unavailable :
  (forall (c : string) (tabla : list (Z * (Z * Z))) (n h : JsNumber),
      In (c, tabla) limites ->
      (forall k r, In (k, r) tabla -> names_key h k = false) ->
      is_NaN n = false ->
      clasificar c (JsNum n) h = Normal (sin_datos (sin_tiempo c h)) /\
      tier (sin_datos (sin_tiempo c h)) = Some Unavailable /\
      names c (sin_tiempo c h) /\
      names (NumberToString DigitsToString h) (sin_tiempo c h)) /\
  clasificar "O3" (JsNum (of_Z 50)) (of_Z 5)
  = Normal (sin_datos "No hay parámetros para O3 con 5h de exposición").
Proof.
  split; [|reflexivity].
  intros c tabla n h Hc Hno Hn.
  split; [|split; [reflexivity|split]].
  - rewrite clasificar_unfold.
    rewrite (own_by_name_In limites c tabla limites_names_nodup Hc).
    rewrite (own_by_number_None tabla h Hno).
    cbn [valor_invalido isNaN ToNumber bind]. now rewrite Hn.
  - apply names_sin_tiempo_contaminante.
  - apply names_sin_tiempo_horas.
Qed.

(** C6: the rows of the table of the engine are the fourteen rows of the
    reference table of the specification, the two property reads of the
    engine find exactly these rows, a pollutant and window have at most
    one pair of limits, and in every row the Moderate limit is at least
    the Good limit. *)
Theorem limites_is_spec_table :
  entradas = spec_threshold_table /\
  List.length entradas = 14%nat /\
  (forall c h g m,
      (exists tabla, own_by_name limites c = Some tabla /\
                     own_by_number tabla h = Some (g, m))
      <-> (exists k, In (c, k, g, m) spec_threshold_table /\
                     names_key h k = true)) /\
  (forall c k g m g' m',
      In (c, k, g, m) entradas -> In (c, k, g', m') entradas ->
      g = g' /\ m = m') /\
  (forall c k g m, In (c, k, g, m) entradas -> g <= m).
Proof.
  split; [reflexivity|]. split; [reflexivity|]. split; [|split].
  - intros c h g m. rewrite <- entradas_unfolded. split.
    + intros [tabla [Hc Hh]]. now apply (lookup_entrada_inv c tabla).
    + intros [k [Hin Hk]]. now apply (lookup_entrada c k).
  - intros c k g m g' m' H H'.
    destruct (lookup_entrada c k g m (of_Z k) H (names_key_of_Z k))
      as [t [Hc Hh]].
    destruct (lookup_entrada c k g' m' (of_Z k) H' (names_key_of_Z k))
      as [t' [Hc' Hh']].
    rewrite Hc in Hc'. inversion Hc'; subst t'.
    rewrite Hh in Hh'. inversion Hh'. auto.
  - intros c k g m H. destruct (entradas_ordered c k g m H). lia.
Qed.

(** The color and the text that go with each tier in a returned object. *)
Lemma binding_of_result (c : string) (v : JsValue) (h : JsNumber)
    (r : Clasificacion) :
  clasificar c v h = Normal r ->
  (tier r = Some Good /\ color r = "#00E400" /\ descripcion r = texto_buena) \/
  (tier r = Some Moderate /\ color r = "#FFFF00"
   /\ descripcion r = texto_regular) \/
  (tier r = Some Poor /\ color r = "#FF0000" /\ descripcion r = texto_mala) \/
  (tier r = Some Unavailable /\ color r = "#9E9E9E" /\
   (descripcion r = texto_sin_valor \/
    descripcion r = texto_sin_contaminante c \/
    descripcion r = sin_tiempo c h)).
Proof.
  intros E. pose proof (clasificar_forma c v h) as F. rewrite E in F.
  inversion F as [| |Hc| |tabla g m b1 b2 Hc Hh]; subst; clear F.
  - do 3 right. simpl. tauto.
  - do 3 right. simpl. tauto.
  - do 3 right. simpl. tauto.
  - destruct b1; [|destruct b2]; simpl; tauto.
Qed.

(** C7 (as amended): in every returned object the tier fixes the color and
    the text: Good is #00E400 with the text that the air meets the WHO
    (OMS) standards, Moderate is #FFFF00, Poor is #FF0000, each with its
    own fixed text as the source writes it, and Unavailable is #9E9E9E
    with one of the three messages for a missing value, a pollutant
    without parameters, or a pollutant and window without parameters.
    Between any two returned objects the tiers agree exactly when the
    colors agree. *)
Theorem tier_binds_color_and_text :
  (forall (c : string) (v : JsValue) (h : JsNumber) (r : Clasificacion),
      clasificar c v h = Normal r ->
      (tier r = Some Good /\ color r = "#00E400" /\
       descripcion r = "La calidad del aire cumple con los estándares de la OMS y no representa riesgo para la salud") \/
      (tier r = Some Moderate /\ color r = "#FFFF00" /\
       descripcion r = texto_regular) \/
      (tier r = Some Poor /\ color r = "#FF0000" /\
       descripcion r = texto_mala) \/
      (tier r = Some Unavailable /\ color r = "#9E9E9E" /\
       (descripcion r = "No hay información disponible para esta medición" \/
        descripcion r = "No hay parámetros de referencia para " ++ c \/
        descripcion r = "No hay parámetros para " ++ c ++ " con "
                          ++ NumberToString DigitsToString h
                          ++ "h de exposición"))) /\
  (forall (c1 c2 : string) (v1 v2 : JsValue) (h1 h2 : JsNumber)
          (r1 r2 : Clasificacion),
      clasificar c1 v1 h1 = Normal r1 -> clasificar c2 v2 h2 = Normal r2 ->
      (tier r1 = tier r2 <-> color r1 = color r2)).
Proof.
  split.
  - intros c v h r E. exact (binding_of_result c v h r E).
  - intros c1 c2 v1 v2 h1 h2 r1 r2 E1 E2.
    destruct (binding_of_result c1 v1 h1 r1 E1)
      as [[T1 [C1 _]]|[[T1 [C1 _]]|[[T1 [C1 _]]|[T1 [C1 _]]]]];
    destruct (binding_of_result c2 v2 h2 r2 E2)
      as [[T2 [C2 _]]|[[T2 [C2 _]]|[[T2 [C2 _]]|[T2 [C2 _]]]]];
    rewrite T1, T2, C1, C2; split; intros E;
      first [reflexivity | discriminate E].
Qed.

(** C8 (as amended): a returned object whose tier is Good, Moderate or
    Poor carries in [limites_oms] the pair of limits of the row of the
    table for the pollutant and window, the hours as they were passed,
    and the source label OMS 2021; a returned object whose tier is
    Unavailable has no [limites_oms]. *)
Theorem limites_oms_echo (c : string) (v : JsValue) (h : JsNumber)
    (r : Clasificacion) :
  clasificar c v h = Normal r ->
  (tier r = Some Unavailable -> limites_oms r = None) /\
  (tier r = Some Good \/ tier r = Some Moderate \/ tier r = Some Poor ->
   exists k g m,
     In (c, k, g, m) entradas /\ names_key h k = true /\
     limites_oms r = Some {| buena := g; regular := m;
                             tiempo_horas := h; fuente := "OMS 2021" |}).
Proof.
  intros E. pose proof (clasificar_forma c v h) as F. rewrite E in F.
  inversion F as [| |Hc| |tabla g m b1 b2 Hc Hh]; subst; clear F.
  - split; [reflexivity|]. rewrite tier_sin_datos.
    intros [H|[H|H]]; discriminate H.
  - split; [reflexivity|]. rewrite tier_sin_datos.
    intros [H|[H|H]]; discriminate H.
  - split; [reflexivity|]. rewrite tier_sin_datos.
    intros [H|[H|H]]; discriminate H.
  - split.
    + rewrite tier_resultado_de. destruct b1, b2; discriminate.
    + intros _.
      destruct (lookup_entrada_inv c tabla g m h Hc Hh) as [k [Hin Hk]].
      exists k, g, m. repeat split; assumption.
Qed.

(** C9: the check of the value comes first: when the value is null,
    undefined, or is read by ToNumber as NaN, then for every pollutant
    (in the table or not) and every exposure window (in the table or not)
    the call returns the missing-value object, whose text is neither the
    text for an unknown pollutant nor the text for an unsupported
    window. *)
Theorem missing_value_precedes_lookup (c : string) (v : JsValue) (h : JsNumber) :
  v = JsNull \/ v = JsUndefined \/ ToNumber StringToNumber v = Normal NaN ->
  clasificar c v h = Normal (sin_datos texto_sin_valor) /\
  descripcion (sin_datos texto_sin_valor) <> texto_sin_contaminante c /\
  descripcion (sin_datos texto_sin_valor) <> sin_tiempo c h.
Proof.
  intros Hv. split; [|split].
  - rewrite clasificar_unfold.
    assert (Hinv : valor_invalido StringToNumber v = Normal true).
    { destruct Hv as [->|[->|Hv]]; try reflexivity.
      destruct v; try reflexivity; unfold valor_invalido, isNaN, bind;
        now rewrite Hv. }
    now rewrite Hinv.
  - apply sin_valor_differs_sin_contaminante.
  - apply sin_valor_differs_sin_tiempo.
Qed.

(** C10: nothing checks the value from below: for a row of the table,
    every number that is at most the Good limit is Good, and so are
    negative infinity and every number that is zero or negative. *)
Theorem no_lower_bound_on_value (c : string) (k g m : Z) (h : JsNumber) :
  In (c, k, g, m) entradas -> names_key h k = true ->
  (forall n, le_limit n g ->
             tier_of (clasificar c (JsNum n) h) = Some Good) /\
  tier_of (clasificar c (JsNum NegInfinity) h) = Some Good /\
  (forall q, (q <= 0)%Q ->
             tier_of (clasificar c (JsNum (Finite q)) h) = Some Good).
Proof.
  intros Hin Hk.
  assert (Hle : forall n, le_limit n g ->
                  tier_of (clasificar c (JsNum n) h) = Some Good).
  { intros n Hn.
    rewrite (clasificar_entrada c k g m n h Hin Hk (le_limit_not_NaN n g Hn)).
    cbn [tier_of]. rewrite tier_resultado_de.
    apply Number_lessOrEqual_true in Hn. now rewrite Hn. }
  split; [exact Hle|]. split.
  - apply Hle. exact I.
  - intros q Hq. apply Hle. simpl.
    apply (Qle_trans _ _ _ Hq).
    destruct (entradas_ordered c k g m Hin) as [Hg _].
    change 0%Q with (inject_Z 0). now rewrite <- Zle_Qle.
Qed.

End EngineProperties.

(** ** Closed examples *)

(** The host is not consulted when the value is not a string and the
    hours are not a finite number outside the safe integers: any two
    hosts then give the same result. *)
Lemma clasificar_host_independent (S1 S2 : string -> JsNumber)
    (D1 D2 : Q -> string) (c : string) (v : JsValue) (h : JsNumber) :
  (forall s, v <> JsString s) ->
  (forall q, h = Finite q -> safe_integer q <> None) ->
  clasificarCalidadAire S1 D1 c v h = clasificarCalidadAire S2 D2 c v h.
Proof.
  intros Hv Hh. rewrite !clasificar_unfold.
  assert (Hinv : valor_invalido S1 v = valor_invalido S2 v).
  { destruct v; try reflexivity. now elim (Hv s). }
  assert (Hle : forall k, lessOrEqual S1 v k = lessOrEqual S2 v k).
  { intros k. destruct v; try reflexivity. now elim (Hv s). }
  assert (Htxt : texto_sin_tiempo D1 c h = texto_sin_tiempo D2 c h).
  { unfold texto_sin_tiempo, NumberToString.
    destruct h as [| |q|]; try reflexivity.
    destruct (safe_integer q) eqn:E; [reflexivity|].
    now elim (Hh q eq_refl). }
  rewrite Hinv, Htxt.
  destruct (valor_invalido S2 v) as [[|]|e]; try reflexivity.
  destruct (own_by_name limites c) as [tabla|]; [|reflexivity].
  destruct (own_by_number tabla h) as [[g m]|]; [|reflexivity].
  now rewrite !Hle.
Qed.

(** PM2.5 over 24 hours at 20.5: between the limits 15 and 25. *)
Lemma tier_follows_limits_witness :
  (tier_of (clasificar_ejemplo "PM2.5" (JsNum (Finite (41 # 2))) (of_Z 24))
   = Some Good <-> le_limit (Finite (41 # 2)) 15) /\
  (tier_of (clasificar_ejemplo "PM2.5" (JsNum (Finite (41 # 2))) (of_Z 24))
   = Some Moderate
   <-> gt_limit (Finite (41 # 2)) 15 /\ le_limit (Finite (41 # 2)) 25) /\
  (tier_of (clasificar_ejemplo "PM2.5" (JsNum (Finite (41 # 2))) (of_Z 24))
   = Some Poor <-> gt_limit (Finite (41 # 2)) 25) /\
  tier_of (clasificar_ejemplo "PM2.5" (JsNum (of_Z 15)) (of_Z 24)) = Some Good /\
  tier_of (clasificar_ejemplo "PM2.5" (JsNum (of_Z 25)) (of_Z 24))
  = Some Moderate.
Proof.
  apply (tier_follows_limits StringToNumber_enteros DigitsToString_fraccion
           "PM2.5" 24 15 25 (Finite (41 # 2)) (of_Z 24)).
  - simpl. tauto.
  - reflexivity.
  - reflexivity.
Defined.

(** The boolean true as the value of PM10 over 24 hours: it counts as 1. *)
Lemma clasificar_returns_on_convertible_witness :
  exists r,
    clasificar_ejemplo "PM10" (JsBoolean true) (of_Z 24) = Normal r /\
    (exists t, tier r = Some t) /\
    In (color r) ["#00E400"; "#FFFF00"; "#FF0000"; "#9E9E9E"] /\
    descripcion r <> "" /\
    ((forall k g m, In ("PM10", k, g, m) entradas ->
                    names_key (of_Z 24) k = false) ->
     tier r = Some Unavailable).
Proof.
  apply (clasificar_returns_on_convertible StringToNumber_enteros
           DigitsToString_fraccion "PM10" (JsBoolean true) (of_Z 24)).
  reflexivity.
Defined.

(** An identifier that is no pollutant of the table. *)
Lemma unknown_pollutant_unavailable_witness :
  exists r,
    clasificar_ejemplo "Xx-unknown" (JsNum (of_Z 10)) (of_Z 24) = Normal r /\
    tier r = Some Unavailable /\
    limites_oms r = None /\
    names "Xx-unknown" (descripcion r) /\
    descripcion r <> texto_sin_valor /\
    (existsb (String.eqb "Xx-unknown") ObjectPrototype_names = false ->
     descripcion r = "No hay parámetros de referencia para " ++ "Xx-unknown").
Proof.
  apply (unknown_pollutant_unavailable StringToNumber_enteros
           DigitsToString_fraccion "Xx-unknown" (of_Z 10) (of_Z 24)).
  - simpl. intuition discriminate.
  - reflexivity.
Defined.

(** SO2 has windows of 1, 3 and 24 hours: 8 hours, between two of them,
    is not matched to either. *)
Lemma unsupported_window_unavailable_witness :
  clasificar_ejemplo "SO2" (JsNum (of_Z 20)) (of_Z 8)
  = Normal (sin_datos "No hay parámetros para SO2 con 8h de exposición") /\
  tier (sin_datos (texto_sin_tiempo DigitsToString_fraccion "SO2" (of_Z 8)))
  = Some Unavailable /\
  names "SO2" (texto_sin_tiempo DigitsToString_fraccion "SO2" (of_Z 8)) /\
  names (NumberToString DigitsToString_fraccion (of_Z 8))
        (texto_sin_tiempo DigitsToString_fraccion "SO2" (of_Z 8)).
Proof.
  apply (proj1 (unsupported_window_unavailable StringToNumber_enteros
                  DigitsToString_fraccion)
           "SO2" [ (1, (100, 196)); (3, (100, 250)); (24, (40, 125)) ]
           (of_Z 20) (of_Z 8)).
  - simpl. tauto.
  - intros k r [H|[H|[H|[]]]]; inversion H; reflexivity.
  - reflexivity.
Defined.

(** PM2.5 over 24 hours at 12 is Good, and its text is not the English
    sentence of the specification. *)
Lemma good_text_is_not_english :
  exists r,
    clasificar_ejemplo "PM2.5" (JsNum (of_Z 12)) (of_Z 24) = Normal r /\
    tier r = Some Good /\
    color r = "#00E400" /\
    String.eqb (descripcion r)
      "Air quality meets WHO standards and poses no health risk." = false.
Proof.
  eexists. split; [reflexivity|]. repeat split.
Qed.

Lemma tier_binds_color_and_text_witness :
  (tier (resultado_de true true 15 25 (of_Z 24)) = Some Good /\
   color (resultado_de true true 15 25 (of_Z 24)) = "#00E400" /\
   descripcion (resultado_de true true 15 25 (of_Z 24))
   = "La calidad del aire cumple con los estándares de la OMS y no representa riesgo para la salud") \/
  (tier (resultado_de true true 15 25 (of_Z 24)) = Some Moderate /\
   color (resultado_de true true 15 25 (of_Z 24)) = "#FFFF00" /\
   descripcion (resultado_de true true 15 25 (of_Z 24)) = texto_regular) \/
  (tier (resultado_de true true 15 25 (of_Z 24)) = Some Poor /\
   color (resultado_de true true 15 25 (of_Z 24)) = "#FF0000" /\
   descripcion (resultado_de true true 15 25 (of_Z 24)) = texto_mala) \/
  (tier (resultado_de true true 15 25 (of_Z 24)) = Some Unavailable /\
   color (resultado_de true true 15 25 (of_Z 24)) = "#9E9E9E" /\
   (descripcion (resultado_de true true 15 25 (of_Z 24))
    = "No hay información disponible para esta medición" \/
    descripcion (resultado_de true true 15 25 (of_Z 24))
    = "No hay parámetros de referencia para " ++ "PM2.5" \/
    descripcion (resultado_de true true 15 25 (of_Z 24))
    = "No hay parámetros para " ++ "PM2.5" ++ " con "
        ++ NumberToString DigitsToString_fraccion (of_Z 24)
        ++ "h de exposición")).
Proof.
  apply (proj1 (tier_binds_color_and_text StringToNumber_enteros
                  DigitsToString_fraccion)
           "PM2.5" (JsNum (of_Z 12)) (of_Z 24)
           (resultado_de true true 15 25 (of_Z 24))).
  reflexivity.
Defined.

(** CO over 8 hours at 10000 is Moderate; the label of its limits is
    OMS 2021, not WHO 2021. *)
Lemma source_label_is_not_who :
  exists r l,
    clasificar_ejemplo "CO" (JsNum (of_Z 10000)) (of_Z 8) = Normal r /\
    tier r = Some Moderate /\
    limites_oms r = Some l /\
    fuente l = "OMS 2021" /\
    String.eqb (fuente l) "WHO 2021" = false.
Proof.
  do 2 eexists. split; [reflexivity|]. repeat split.
Qed.

Lemma limites_oms_echo_witness :
  (tier (resultado_de false true 7000 10000 (of_Z 8)) = Some Unavailable ->
   limites_oms (resultado_de false true 7000 10000 (of_Z 8)) = None) /\
  (tier (resultado_de false true 7000 10000 (of_Z 8)) = Some Good \/
   tier (resultado_de false true 7000 10000 (of_Z 8)) = Some Moderate \/
   tier (resultado_de false true 7000 10000 (of_Z 8)) = Some Poor ->
   exists k g m,
     In ("CO", k, g, m) entradas /\ names_key (of_Z 8) k = true /\
     limites_oms (resultado_de false true 7000 10000 (of_Z 8))
     = Some {| buena := g; regular := m;
               tiempo_horas := of_Z 8; fuente := "OMS 2021" |}).
Proof.
  apply (limites_oms_echo StringToNumber_enteros DigitsToString_fraccion
           "CO" (JsNum (of_Z 10000)) (of_Z 8)
           (resultado_de false true 7000 10000 (of_Z 8))).
  reflexivity.
Defined.

(** A null value for an unknown pollutant and an unsupported window. *)
Lemma missing_value_precedes_lookup_witness :
  clasificar_ejemplo "Xx-unknown" JsNull (of_Z 5)
  = Normal (sin_datos texto_sin_valor) /\
  descripcion (sin_datos texto_sin_valor)
  <> texto_sin_contaminante "Xx-unknown" /\
  descripcion (sin_datos texto_sin_valor)
  <> texto_sin_tiempo DigitsToString_fraccion "Xx-unknown" (of_Z 5).
Proof.
  apply (missing_value_precedes_lookup StringToNumber_enteros
           DigitsToString_fraccion "Xx-unknown" JsNull (of_Z 5)).
  left. reflexivity.
Defined.

(** NO2 over 1 hour. *)
Lemma no_lower_bound_on_value_witness :
  (forall n, le_limit n 200 ->
             tier_of (clasificar_ejemplo "NO2" (JsNum n) (of_Z 1)) = Some Good) /\
  tier_of (clasificar_ejemplo "NO2" (JsNum NegInfinity) (of_Z 1)) = Some Good /\
  (forall q, (q <= 0)%Q ->
             tier_of (clasificar_ejemplo "NO2" (JsNum (Finite q)) (of_Z 1))
             = Some Good).
Proof.
  apply (no_lower_bound_on_value StringToNumber_enteros DigitsToString_fraccion
           "NO2" 1 200 360 (of_Z 1)).
  - simpl. tauto.
  - reflexivity.
Defined.

(** * The pollutants of a station: getContaminantesPorEstacionYAnio

    The function awaits a query and groups its rows by [simbolo] in an
    object literal, then answers [Object.values] of that object.  The
    model starts from [resultado.rows]; a rejected query, like an
    exception of the grouping, is logged by the [catch] and thrown
    again.  The columns of a row are primitive values; [simbolo], the
    name of the variable, is a string. *)

From Stdlib Require Import Permutation.

Local Open Scope list_scope.

Module Fila.
Record t : Type := {
  id_variable_ambiental : JsValue;
  simbolo : string;
  unidades : JsValue;
  id_exposicion : JsValue;
  tiempo_horas : JsValue;
  tiempo_exposicion_texto : JsValue
}.
End Fila.

Module Tiempo.
Record t : Type := {
  id_exposicion : JsValue;
  tiempo_horas : JsValue;
  tiempo_texto : JsValue
}.
End Tiempo.

Module Grupo.
Record t : Type := {
  id_variable_ambiental : JsValue;
  simbolo : string;
  unidades : JsValue;
  tiempos_exposicion : list Tiempo.t
}.
End Grupo.

(** An object built at run time: its own properties with string names, in
    the order of their creation.  [obj[k] = a] replaces the value of an
    own property and creates the property, last, when there is none. *)
Fixpoint set_by_name {A : Type} (obj : list (string * A)) (k : string) (a : A)
  : list (string * A) :=
  match obj with
  | [] => [(k, a)]
  | (k', a') :: rest =>
      if String.eqb k' k then (k', a) :: rest
      else (k', a') :: set_by_name rest k a
  end.

(** An array index is the decimal print of an integer from 0 to 2^32 - 2. *)
Definition array_index (s : string) : option Z :=
  match NilZero.uint_of_string s with
  | Some d =>
      let i := Z.of_uint d in
      if (String.eqb (decimal i) s && (i <? 4294967295))%bool then Some i
      else None
  | None => None
  end.

Fixpoint insert_by_index {A : Type} (e : Z * A) (l : list (Z * A))
  : list (Z * A) :=
  match l with
  | [] => [e]
  | x :: rest =>
      if fst e <? fst x then e :: l else x :: insert_by_index e rest
  end.

Definition sort_by_index {A : Type} (l : list (Z * A)) : list (Z * A) :=
  fold_right insert_by_index [] l.

(** The own properties named by an array index, with the index. *)
Fixpoint indexed {A : Type} (obj : list (string * A)) : list (Z * A) :=
  match obj with
  | [] => []
  | (k, a) :: rest =>
      match array_index k with
      | Some i => (i, a) :: indexed rest
      | None => indexed rest
      end
  end.

Definition named {A : Type} (obj : list (string * A)) : list (string * A) :=
  filter (fun p => match array_index (fst p) with
                   | Some _ => false
                   | None => true
                   end) obj.

(** [Object.values]: the values of the properties named by an array
    index, by ascending index, then the values of the other properties in
    the order of their creation. *)
Definition Object_values {A : Type} (obj : list (string * A)) : list A :=
  map snd (sort_by_index (indexed obj)) ++ map snd (named obj).

(** [rows.forEach(f)] for a callback that updates a state or throws. *)
Fixpoint forEach {A S : Type} (f : S -> A -> Completion S) (s : S)
    (l : list A) : Completion S :=
  match l with
  | [] => Normal s
  | a :: rest => bind (f s a) (fun s' => forEach f s' rest)
  end.

(** The element pushed for a row. *)
Definition tiempo_de (row : Fila.t) : Tiempo.t :=
  {| Tiempo.id_exposicion := Fila.id_exposicion row;
     Tiempo.tiempo_horas := Fila.tiempo_horas row;
     Tiempo.tiempo_texto := Fila.tiempo_exposicion_texto row |}.

(** [grupo.tiempos_exposicion.push(t)]. *)
Definition push_tiempo (grupo : Grupo.t) (t : Tiempo.t) : Grupo.t :=
  {| Grupo.id_variable_ambiental := Grupo.id_variable_ambiental grupo;
     Grupo.simbolo := Grupo.simbolo grupo;
     Grupo.unidades := Grupo.unidades grupo;
     Grupo.tiempos_exposicion := Grupo.tiempos_exposicion grupo ++ [t] |}.

(** The callback of [resultado.rows.forEach].  The test
    [!contaminantesAgrupados[simbolo]] fails on a group of the object and
    on a value inherited from [Object.prototype]; an inherited value has
    no [tiempos_exposicion], and calling [push] of [undefined] throws. *)
Definition agrupar_fila (contaminantesAgrupados : list (string * Grupo.t))
    (row : Fila.t) : Completion (list (string * Grupo.t)) :=
  let simbolo := Fila.simbolo row in
  let agrupados :=
    match get_by_name contaminantesAgrupados simbolo with
    | Undefined =>
        set_by_name contaminantesAgrupados simbolo
          {| Grupo.id_variable_ambiental := Fila.id_variable_ambiental row;
             Grupo.simbolo := Fila.simbolo row;
             Grupo.unidades := Fila.unidades row;
             Grupo.tiempos_exposicion := [] |}
    | _ => contaminantesAgrupados
    end in
  match get_by_name agrupados simbolo with
  | Own grupo =>
      Normal (set_by_name agrupados simbolo (push_tiempo grupo (tiempo_de row)))
  | Inherited _ => Throw TypeError
  | Undefined => Throw TypeError
  end.

Definition getContaminantesPorEstacionYAnio (rows : list Fila.t)
  : Completion (list Grupo.t) :=
  bind (forEach agrupar_fila [] rows)
       (fun contaminantesAgrupados =>
          Normal (Object_values contaminantesAgrupados)).

(** The symbols of a list in the order of their first occurrence. *)
Definition primeros (l : list string) : list string :=
  rev (nodup string_dec (rev l)).

(** An exposure time together with the symbol of its group. *)
Definition tiempos_con_simbolo (gs : list Grupo.t) : list (string * Tiempo.t) :=
  flat_map (fun g => map (fun t => (Grupo.simbolo g, t))
                         (Grupo.tiempos_exposicion g)) gs.

Definition mismo_simbolo (s : string) (row : Fila.t) : bool :=
  String.eqb (Fila.simbolo row) s.

(** ** Objects built at run time *)

Lemma forEach_app {A S : Type} (f : S -> A -> Completion S) (s : S)
    (l1 l2 : list A) :
  forEach f s (l1 ++ l2)
  = bind (forEach f s l1) (fun s' => forEach f s' l2).
Proof.
  revert s. induction l1 as [|a l1 IH]; intros s; simpl; [reflexivity|].
  destruct (f s a) as [s'|e]; simpl; [apply IH|reflexivity].
Qed.

Lemma own_by_name_keys {A : Type} (obj : list (string * A)) (k : string) :
  In k (map fst obj) <-> exists a, own_by_name obj k = Some a.
Proof.
  induction obj as [|[k' a'] obj IH]; simpl.
  - split; [tauto|]. intros [a H]. discriminate.
  - destruct (String.eqb_spec k' k) as [->|Hne].
    + split; [intros _; now exists a'|auto].
    + rewrite <- IH. tauto.
Qed.

Lemma own_by_name_set_same {A : Type} (obj : list (string * A)) (k : string)
    (a : A) :
  own_by_name (set_by_name obj k a) k = Some a.
Proof.
  induction obj as [|[k' a'] obj IH]; simpl.
  - now rewrite String.eqb_refl.
  - destruct (String.eqb k' k) eqn:E; simpl; now rewrite E.
Qed.

Lemma set_by_name_twice {A : Type} (obj : list (string * A)) (k : string)
    (a b : A) :
  set_by_name (set_by_name obj k a) k b = set_by_name obj k b.
Proof.
  induction obj as [|[k' a'] obj IH]; simpl.
  - now rewrite String.eqb_refl.
  - destruct (String.eqb k' k) eqn:E; simpl; rewrite E; [reflexivity|].
    now rewrite IH.
Qed.

Lemma keys_set_by_name {A : Type} (obj : list (string * A)) (k : string) (a : A) :
  map fst (set_by_name obj k a)
  = match own_by_name obj k with
    | Some _ => map fst obj
    | None => map fst obj ++ [k]
    end.
Proof.
  induction obj as [|[k' a'] obj IH]; simpl; [reflexivity|].
  destruct (String.eqb k' k) eqn:E; simpl; [reflexivity|].
  rewrite IH. now destruct (own_by_name obj k).
Qed.

Lemma In_set_by_name {A : Type} (obj : list (string * A)) (k k' : string)
    (a g : A) :
  NoDup (map fst obj) -> In (k', g) (set_by_name obj k a) ->
  (k' = k /\ g = a) \/ (k' <> k /\ In (k', g) obj).
Proof.
  induction obj as [|[k0 a0] obj IH]; simpl; intros Hnd Hin.
  - destruct Hin as [H|[]]. inversion H; subst. auto.
  - inversion Hnd as [|? ? Hnotin Hnd']; subst.
    destruct (String.eqb_spec k0 k) as [->|Hne].
    + destruct Hin as [H|H]; [inversion H; subst; auto|].
      right. split; [|now right].
      intros ->. apply Hnotin. apply in_map_iff. now exists (k, g).
    + destruct Hin as [H|H].
      * inversion H; subst. right. split; [assumption|now left].
      * destruct (IH Hnd' H) as [?|[? ?]]; [now left|].
        right. split; [assumption|now right].
Qed.

Lemma find_snoc {A : Type} (f : A -> bool) (l : list A) (a : A) :
  find f (l ++ [a])
  = match find f l with
    | Some x => Some x
    | None => if f a then Some a else None
    end.
Proof.
  induction l as [|x l IH]; simpl; [reflexivity|].
  now destruct (f x).
Qed.

Lemma primeros_snoc (l : list string) (s : string) :
  primeros (l ++ [s])
  = if in_dec string_dec s l then primeros l else primeros l ++ [s].
Proof.
  unfold primeros. rewrite rev_app_distr. simpl.
  destruct (in_dec string_dec s (rev l)) as [Hin|Hnot];
    destruct (in_dec string_dec s l) as [Hin'|Hnot']; try reflexivity.
  - elim Hnot'. now apply in_rev.
  - elim Hnot. now apply in_rev in Hin'.
Qed.

Lemma In_primeros (l : list string) (s : string) :
  In s (primeros l) <-> In s l.
Proof.
  unfold primeros. rewrite <- in_rev, nodup_In, <- in_rev. tauto.
Qed.

Lemma NoDup_primeros (l : list string) : NoDup (primeros l).
Proof. unfold primeros. apply NoDup_rev, NoDup_nodup. Qed.

Lemma filter_mismo_simbolo_nil (s : string) (rows : list Fila.t) :
  ~ In s (map Fila.simbolo rows) -> filter (mismo_simbolo s) rows = [].
Proof.
  induction rows as [|r rows IH]; simpl; [reflexivity|].
  intros H. unfold mismo_simbolo at 1.
  destruct (String.eqb_spec (Fila.simbolo r) s) as [E|_]; [tauto|].
  apply IH. tauto.
Qed.

Lemma find_mismo_simbolo_none (s : string) (rows : list Fila.t) :
  ~ In s (map Fila.simbolo rows) -> find (mismo_simbolo s) rows = None.
Proof.
  induction rows as [|r rows IH]; simpl; [reflexivity|].
  intros H. unfold mismo_simbolo at 1.
  destruct (String.eqb_spec (Fila.simbolo r) s) as [E|_]; [tauto|].
  apply IH. tauto.
Qed.

(** ** Sorting by index and [Object.values] *)

Lemma insert_by_index_perm {A : Type} (e : Z * A) (l : list (Z * A)) :
  Permutation (insert_by_index e l) (e :: l).
Proof.
  induction l as [|x l IH]; simpl; [reflexivity|].
  destruct (fst e <? fst x); [reflexivity|].
  rewrite IH. apply perm_swap.
Qed.

Lemma sort_by_index_perm {A : Type} (l : list (Z * A)) :
  Permutation (sort_by_index l) l.
Proof.
  induction l as [|x l IH]; simpl; [reflexivity|].
  rewrite insert_by_index_perm. now constructor.
Qed.

Lemma Object_values_perm {A : Type} (obj : list (string * A)) :
  Permutation (Object_values obj) (map snd obj).
Proof.
  unfold Object_values.
  rewrite (Permutation_map snd (sort_by_index_perm (indexed obj))).
  induction obj as [|[k a] obj IH]; simpl; [reflexivity|].
  destruct (array_index k); simpl.
  - now constructor.
  - rewrite <- IH. symmetry. apply Permutation_middle.
Qed.

Lemma Object_values_named {A : Type} (obj : list (string * A)) :
  (forall k, In k (map fst obj) -> array_index k = None) ->
  Object_values obj = map snd obj.
Proof.
  intros H. unfold Object_values.
  assert (Hi : indexed obj = [] /\ named obj = obj).
  { unfold named. induction obj as [|[k a] obj IH]; simpl; [auto|].
    rewrite (H k) by now left.
    destruct IH as [-> ->]; [|auto].
    intros k' Hk'. apply H. now right. }
  destruct Hi as [-> ->]. reflexivity.
Qed.

(** ** The grouping step *)

(** The group created for the first row of a symbol, before the push. *)
Definition nuevo_grupo (row : Fila.t) : Grupo.t :=
  {| Grupo.id_variable_ambiental := Fila.id_variable_ambiental row;
     Grupo.simbolo := Fila.simbolo row;
     Grupo.unidades := Fila.unidades row;
     Grupo.tiempos_exposicion := [] |}.

(** What the object holds after [rows]: one property per symbol, in the
    order of first occurrence, whose group has the columns of the first
    row of the symbol and the exposure times of all its rows. *)
Definition agrupado (rows : list Fila.t) (obj : list (string * Grupo.t)) : Prop :=
  map fst obj = primeros (map Fila.simbolo rows) /\
  (forall k g, In (k, g) obj ->
     Grupo.simbolo g = k /\
     Grupo.tiempos_exposicion g
     = map tiempo_de (filter (mismo_simbolo k) rows) /\
     exists r0, find (mismo_simbolo k) rows = Some r0 /\
                Grupo.id_variable_ambiental g = Fila.id_variable_ambiental r0 /\
                Grupo.unidades g = Fila.unidades r0) /\
  Permutation (tiempos_con_simbolo (map snd obj))
              (map (fun r => (Fila.simbolo r, tiempo_de r)) rows).

Lemma heredado_In (s : string) :
  existsb (String.eqb s) ObjectPrototype_names = true
  <-> In s ObjectPrototype_names.
Proof.
  rewrite existsb_exists. split.
  - intros [x [Hin Heq]]. apply String.eqb_eq in Heq. now subst.
  - intros H. exists s. split; [assumption|apply String.eqb_refl].
Qed.

Lemma agrupar_fila_ok (obj : list (string * Grupo.t)) (row : Fila.t) :
  ~ In (Fila.simbolo row) ObjectPrototype_names ->
  agrupar_fila obj row
  = Normal (set_by_name obj (Fila.simbolo row)
              (push_tiempo
                 match own_by_name obj (Fila.simbolo row) with
                 | Some g => g
                 | None => nuevo_grupo row
                 end
                 (tiempo_de row))).
Proof.
  intros Hs. unfold agrupar_fila, get_by_name.
  destruct (own_by_name obj (Fila.simbolo row)) as [g|] eqn:E.
  - now rewrite E.
  - destruct (existsb (String.eqb (Fila.simbolo row)) ObjectPrototype_names)
      eqn:Hh; [now apply heredado_In in Hh|].
    rewrite own_by_name_set_same. now rewrite set_by_name_twice.
Qed.

Lemma agrupar_fila_throws (obj : list (string * Grupo.t)) (row : Fila.t) :
  In (Fila.simbolo row) ObjectPrototype_names ->
  own_by_name obj (Fila.simbolo row) = None ->
  agrupar_fila obj row = Throw TypeError.
Proof.
  intros Hs E. apply heredado_In in Hs.
  unfold agrupar_fila, get_by_name.
  rewrite E, Hs. cbv beta iota zeta. now rewrite ?E, ?Hs.
Qed.

Lemma tiempos_set_existente (obj : list (string * Grupo.t)) (k : string)
    (g : Grupo.t) (t : Tiempo.t) :
  own_by_name obj k = Some g ->
  Permutation
    (tiempos_con_simbolo (map snd (set_by_name obj k (push_tiempo g t))))
    (tiempos_con_simbolo (map snd obj) ++ [(Grupo.simbolo g, t)]).
Proof.
  unfold tiempos_con_simbolo.
  induction obj as [|[k0 g0] obj IH]; simpl; [discriminate|].
  destruct (String.eqb k0 k); simpl.
  - intros H. inversion H; subst g0. simpl.
    rewrite map_app. simpl. rewrite <- !app_assoc.
    apply Permutation_app_head. apply Permutation_app_comm.
  - intros H. rewrite (IH H). now rewrite app_assoc.
Qed.

Lemma set_by_name_nuevo {A : Type} (obj : list (string * A)) (k : string)
    (a : A) :
  own_by_name obj k = None -> set_by_name obj k a = obj ++ [(k, a)].
Proof.
  induction obj as [|[k0 a0] obj IH]; simpl; [reflexivity|].
  destruct (String.eqb k0 k); [discriminate|].
  intros H. now rewrite IH.
Qed.

Lemma tiempos_set_nuevo (obj : list (string * Grupo.t)) (k : string)
    (g : Grupo.t) (t : Tiempo.t) :
  own_by_name obj k = None -> Grupo.tiempos_exposicion g = [] ->
  tiempos_con_simbolo (map snd (set_by_name obj k (push_tiempo g t)))
  = tiempos_con_simbolo (map snd obj) ++ [(Grupo.simbolo g, t)].
Proof.
  unfold tiempos_con_simbolo. intros Hk Hg.
  rewrite (set_by_name_nuevo obj k _ Hk), map_app, flat_map_app.
  simpl. now rewrite Hg.
Qed.

Lemma agrupado_otro_simbolo (rows : list Fila.t) (r : Fila.t) (k : string)
    (g : Grupo.t) :
  k <> Fila.simbolo r ->
  (Grupo.simbolo g = k /\
   Grupo.tiempos_exposicion g = map tiempo_de (filter (mismo_simbolo k) rows) /\
   exists r0, find (mismo_simbolo k) rows = Some r0 /\
              Grupo.id_variable_ambiental g = Fila.id_variable_ambiental r0 /\
              Grupo.unidades g = Fila.unidades r0) ->
  Grupo.simbolo g = k /\
  Grupo.tiempos_exposicion g
  = map tiempo_de (filter (mismo_simbolo k) (rows ++ [r])) /\
  exists r0, find (mismo_simbolo k) (rows ++ [r]) = Some r0 /\
             Grupo.id_variable_ambiental g = Fila.id_variable_ambiental r0 /\
             Grupo.unidades g = Fila.unidades r0.
Proof.
  intros Hne [Hs [Ht [r0 [Hf Hm]]]].
  assert (Hr : mismo_simbolo k r = false).
  { unfold mismo_simbolo. apply String.eqb_neq. congruence. }
  split; [assumption|]. split.
  - rewrite filter_app. simpl. rewrite Hr. now rewrite app_nil_r.
  - exists r0. rewrite find_snoc, Hf. auto.
Qed.

Lemma agrupado_paso (rows : list Fila.t) (obj : list (string * Grupo.t))
    (r : Fila.t) :
  agrupado rows obj ->
  agrupado (rows ++ [r])
    (set_by_name obj (Fila.simbolo r)
       (push_tiempo
          match own_by_name obj (Fila.simbolo r) with
          | Some g => g
          | None => nuevo_grupo r
          end
          (tiempo_de r))).
Proof.
  intros [Hk [Hg Hp]].
  assert (Hnd : NoDup (map fst obj)) by (rewrite Hk; apply NoDup_primeros).
  assert (Hr : mismo_simbolo (Fila.simbolo r) r = true)
    by apply String.eqb_refl.
  destruct (own_by_name obj (Fila.simbolo r)) as [g0|] eqn:E.
  - pose proof (own_by_name_Some obj _ g0 E) as Hin0.
    destruct (Hg _ g0 Hin0) as [Hs0 [Ht0 [r0 [Hf0 [Hi0 Hu0]]]]].
    assert (Hin : In (Fila.simbolo r) (map Fila.simbolo rows)).
    { apply In_primeros. rewrite <- Hk. apply own_by_name_keys. eauto. }
    split; [|split].
    + rewrite keys_set_by_name, E, Hk, map_app. simpl.
      rewrite primeros_snoc.
      destruct (in_dec string_dec (Fila.simbolo r) (map Fila.simbolo rows));
        [reflexivity|contradiction].
    + intros k g Hin'.
      destruct (In_set_by_name obj _ k _ g Hnd Hin') as [[-> ->]|[Hne Hin'']].
      * simpl. split; [assumption|]. split.
        -- rewrite filter_app, map_app. simpl. rewrite Hr. simpl.
           now rewrite Ht0.
        -- exists r0. rewrite find_snoc, Hf0. auto.
      * apply agrupado_otro_simbolo; [assumption|now apply Hg].
    + rewrite (tiempos_set_existente obj _ g0 _ E), map_app. simpl.
      rewrite Hs0. now apply Permutation_app_tail.
  - assert (Hnot : ~ In (Fila.simbolo r) (map Fila.simbolo rows)).
    { intros Hin. apply In_primeros in Hin. rewrite <- Hk in Hin.
      apply own_by_name_keys in Hin. destruct Hin as [a Ha]. congruence. }
    split; [|split].
    + rewrite keys_set_by_name, E, Hk, map_app. simpl.
      rewrite primeros_snoc.
      destruct (in_dec string_dec (Fila.simbolo r) (map Fila.simbolo rows));
        [contradiction|reflexivity].
    + intros k g Hin'.
      destruct (In_set_by_name obj _ k _ g Hnd Hin') as [[-> ->]|[Hne Hin'']].
      * simpl. split; [reflexivity|]. split.
        -- rewrite filter_app, map_app. simpl. rewrite Hr. simpl.
           now rewrite (filter_mismo_simbolo_nil _ rows Hnot).
        -- exists r. rewrite find_snoc, Hr.
           rewrite (find_mismo_simbolo_none _ rows Hnot). auto.
      * apply agrupado_otro_simbolo; [assumption|now apply Hg].
    + rewrite (tiempos_set_nuevo obj _ (nuevo_grupo r) _ E eq_refl), map_app.
      simpl. now apply Permutation_app_tail.
Qed.

Lemma forEach_agrupado (rows : list Fila.t) :
  (forall r, In r rows -> ~ In (Fila.simbolo r) ObjectPrototype_names) ->
  exists obj, forEach agrupar_fila [] rows = Normal obj /\ agrupado rows obj.
Proof.
  induction rows as [|r rows IH] using rev_ind; intros Hs.
  - exists []. split; [reflexivity|].
    split; [reflexivity|]. split; [intros k g []|constructor].
  - destruct IH as [obj [E Hinv]].
    { intros r' Hr'. apply Hs. apply in_app_iff. now left. }
    eexists. split.
    + rewrite forEach_app, E. simpl.
      rewrite agrupar_fila_ok; [reflexivity|].
      apply Hs. apply in_app_iff. right. now left.
    + now apply agrupado_paso.
Qed.

(** A row whose symbol is a name of [Object.prototype] stops the grouping. *)
Lemma forEach_heredado (rows : list Fila.t) (obj : list (string * Grupo.t)) :
  (forall k, In k (map fst obj) -> ~ In k ObjectPrototype_names) ->
  (exists r, In r rows /\ In (Fila.simbolo r) ObjectPrototype_names) ->
  forEach agrupar_fila obj rows = Throw TypeError.
Proof.
  revert obj. induction rows as [|r rows IH]; intros obj Hobj [r' [Hin Hh]].
  - destruct Hin.
  - simpl.
    destruct (in_dec string_dec (Fila.simbolo r) ObjectPrototype_names)
      as [Hr|Hr].
    + rewrite agrupar_fila_throws; [reflexivity|assumption|].
      destruct (own_by_name obj (Fila.simbolo r)) as [g|] eqn:E;
        [|reflexivity].
      elim (Hobj (Fila.simbolo r)); [|assumption].
      apply own_by_name_keys. eauto.
    + rewrite (agrupar_fila_ok obj r Hr). simpl. apply IH.
      * intros k Hk. rewrite keys_set_by_name in Hk.
        destruct (own_by_name obj (Fila.simbolo r)).
        -- now apply Hobj.
        -- apply in_app_iff in Hk. destruct Hk as [Hk|[<-|[]]];
             [now apply Hobj|assumption].
      * destruct Hin as [->|Hin]; [contradiction|]. now exists r'.
Qed.

Lemma heredado_dec (rows : list Fila.t) :
  (exists r, In r rows /\ In (Fila.simbolo r) ObjectPrototype_names) \/
  (forall r, In r rows -> ~ In (Fila.simbolo r) ObjectPrototype_names).
Proof.
  induction rows as [|r rows [[r' [Hin Hh]]|IH]].
  - right. intros r [].
  - left. exists r'. split; [now right|assumption].
  - destruct (in_dec string_dec (Fila.simbolo r) ObjectPrototype_names)
      as [Hr|Hr].
    + left. exists r. split; [now left|assumption].
    + right. intros r' [<-|Hin]; [assumption|now apply IH].
Qed.

Lemma getContaminantes_heredado (rows : list Fila.t) :
  (exists r, In r rows /\ In (Fila.simbolo r) ObjectPrototype_names) ->
  getContaminantesPorEstacionYAnio rows = Throw TypeError.
Proof.
  intros H. unfold getContaminantesPorEstacionYAnio.
  rewrite (forEach_heredado rows [] (fun k (Hk : In k []) => match Hk with end) H).
  reflexivity.
Qed.

Lemma getContaminantes_agrupado (rows : list Fila.t) (gs : list Grupo.t) :
  getContaminantesPorEstacionYAnio rows = Normal gs ->
  exists obj, agrupado rows obj /\ gs = Object_values obj.
Proof.
  intros E. destruct (heredado_dec rows) as [H|H].
  - rewrite (getContaminantes_heredado rows H) in E. discriminate.
  - destruct (forEach_agrupado rows H) as [obj [Ef Hinv]].
    unfold getContaminantesPorEstacionYAnio in E. rewrite Ef in E.
    simpl in E. inversion E. now exists obj.
Qed.

Lemma simbolos_de_agrupado (rows : list Fila.t) (obj : list (string * Grupo.t)) :
  agrupado rows obj ->
  map Grupo.simbolo (map snd obj) = primeros (map Fila.simbolo rows).
Proof.
  intros [Hk [Hg _]]. rewrite <- Hk, map_map.
  apply map_ext_in. intros [k g] Hin. simpl. now destruct (Hg k g Hin).
Qed.

(** X1: when no symbol is a property name of Object.prototype, the call
    returns one group for each symbol of the rows: no two groups have the
    same symbol, and a symbol has a group exactly when a row has it. *)
Theorem un_grupo_por_simbolo (rows : list Fila.t) :
  (forall r, In r rows -> ~ In (Fila.simbolo r) ObjectPrototype_names) ->
  exists gs,
    getContaminantesPorEstacionYAnio rows = Normal gs /\
    NoDup (map Grupo.simbolo gs) /\
    (forall s, In s (map Grupo.simbolo gs) <-> In s (map Fila.simbolo rows)).
Proof.
  intros H. destruct (forEach_agrupado rows H) as [obj [Ef Hinv]].
  exists (Object_values obj).
  unfold getContaminantesPorEstacionYAnio. rewrite Ef. simpl.
  split; [reflexivity|].
  pose proof (Permutation_map Grupo.simbolo (Object_values_perm obj)) as Hp.
  rewrite (simbolos_de_agrupado rows obj Hinv) in Hp.
  split.
  - apply (Permutation_NoDup (Permutation_sym Hp)). apply NoDup_primeros.
  - intros s. rewrite <- (In_primeros (map Fila.simbolo rows)). split.
    + apply (Permutation_in _ Hp).
    + apply (Permutation_in _ (Permutation_sym Hp)).
Qed.

(** X2: in a returned list, the exposure times of a group are those of the
    rows of its symbol, all of them and in the order of the rows; there is
    at least one; and the variable and the units of the group are those of
    the first row of the symbol. *)
Theorem grupo_reune_sus_filas (rows : list Fila.t) (gs : list Grupo.t)
    (g : Grupo.t) :
  getContaminantesPorEstacionYAnio rows = Normal gs -> In g gs ->
  Grupo.tiempos_exposicion g
  = map tiempo_de (filter (mismo_simbolo (Grupo.simbolo g)) rows) /\
  Grupo.tiempos_exposicion g <> [] /\
  exists r0,
    find (mismo_simbolo (Grupo.simbolo g)) rows = Some r0 /\
    Grupo.id_variable_ambiental g = Fila.id_variable_ambiental r0 /\
    Grupo.unidades g = Fila.unidades r0.
Proof.
  intros E Hin.
  destruct (getContaminantes_agrupado rows gs E) as [obj [Hinv ->]].
  apply (Permutation_in _ (Object_values_perm obj)) in Hin.
  apply in_map_iff in Hin. destruct Hin as [[k g'] [Heq Hin]].
  simpl in Heq. subst g'.
  destruct Hinv as [_ [Hg _]].
  destruct (Hg k g Hin) as [Hs [Ht [r0 [Hf Hm]]]]. subst k.
  split; [assumption|]. split; [|now exists r0].
  rewrite Ht. destruct (find_some _ _ Hf) as [Hr0 Hb].
  intros Hnil.
  assert (Hin0 : In (tiempo_de r0)
                    (map tiempo_de
                       (filter (mismo_simbolo (Grupo.simbolo g)) rows))).
  { apply in_map. apply filter_In. auto. }
  rewrite Hnil in Hin0. destruct Hin0.
Qed.

(** X3: no row is lost and none is counted twice: the exposure times of
    the returned groups, each with the symbol of its group, are the
    (symbol, exposure time) pairs of the rows, up to order. *)
Theorem ninguna_fila_se_pierde (rows : list Fila.t) (gs : list Grupo.t) :
  getContaminantesPorEstacionYAnio rows = Normal gs ->
  Permutation (tiempos_con_simbolo gs)
              (map (fun r => (Fila.simbolo r, tiempo_de r)) rows).
Proof.
  intros E.
  destruct (getContaminantes_agrupado rows gs E) as [obj [Hinv ->]].
  destruct Hinv as [_ [_ Hp]].
  rewrite <- Hp. unfold tiempos_con_simbolo.
  apply Permutation_flat_map. apply Object_values_perm.
Qed.

(** X4: when no symbol reads as an array index, the groups come in the
    order in which their symbols first occur in the rows. *)
Theorem grupos_en_orden_de_aparicion (rows : list Fila.t) (gs : list Grupo.t) :
  getContaminantesPorEstacionYAnio rows = Normal gs ->
  (forall r, In r rows -> array_index (Fila.simbolo r) = None) ->
  map Grupo.simbolo gs = primeros (map Fila.simbolo rows).
Proof.
  intros E Hidx.
  destruct (getContaminantes_agrupado rows gs E) as [obj [Hinv ->]].
  rewrite Object_values_named; [now apply simbolos_de_agrupado|].
  intros k Hk. destruct Hinv as [Hkeys _]. rewrite Hkeys in Hk.
  apply In_primeros, in_map_iff in Hk. destruct Hk as [r [<- Hr]].
  now apply Hidx.
Qed.

(** X5: the call throws exactly when the symbol of some row is a property
    name of Object.prototype ([constructor], [toString], ...). *)
Theorem simbolo_heredado_lanza (rows : list Fila.t) :
  getContaminantesPorEstacionYAnio rows = Throw TypeError
  <-> exists r, In r rows /\ In (Fila.simbolo r) ObjectPrototype_names.
Proof.
  split; [|apply getContaminantes_heredado].
  intros E. destruct (heredado_dec rows) as [H|H]; [assumption|].
  destruct (forEach_agrupado rows H) as [obj [Ef _]].
  unfold getContaminantesPorEstacionYAnio in E. rewrite Ef in E.
  discriminate.
Qed.

(** ** Order of the groups named by an array index *)

From Stdlib Require Import Sorting.Sorted.

(** [g] comes before [g']: both symbols are array indices and the index of
    [g] is the smaller. *)
Definition indice_menor (g g' : Grupo.t) : Prop :=
  exists i j, array_index (Grupo.simbolo g) = Some i /\
              array_index (Grupo.simbolo g') = Some j /\ i < j.

Definition sin_indice (s : string) : bool :=
  match array_index s with
  | Some _ => false
  | None => true
  end.

Lemma array_index_decimal (s : string) (i : Z) :
  array_index s = Some i -> s = decimal i.
Proof.
  unfold array_index. destruct (NilZero.uint_of_string s) as [d|];
    [|discriminate].
  cbv zeta.
  destruct (String.eqb_spec (decimal (Z.of_uint d)) s) as [E|_];
    [|discriminate].
  destruct (Z.of_uint d <? 4294967295); [|discriminate].
  simpl. intros H. inversion H; subst i. now symmetry.
Qed.

Lemma In_indexed {A : Type} (obj : list (string * A)) (i : Z) (a : A) :
  In (i, a) (indexed obj) <->
  exists k, In (k, a) obj /\ array_index k = Some i.
Proof.
  induction obj as [|[k0 a0] obj IH]; simpl.
  - split; [tauto|]. intros [k [[] _]].
  - destruct (array_index k0) as [i0|] eqn:E; simpl; rewrite IH; split.
    + intros [H|[k [Hin Hk]]].
      * inversion H; subst. exists k0. auto.
      * exists k. auto.
    + intros [k [[H|Hin] Hk]].
      * inversion H; subst. left. congruence.
      * right. now exists k.
    + intros [k [Hin Hk]]. exists k. auto.
    + intros [k [[H|Hin] Hk]].
      * inversion H; subst. congruence.
      * now exists k.
Qed.

Lemma NoDup_indexed {A : Type} (obj : list (string * A)) :
  NoDup (map fst obj) -> NoDup (map fst (indexed obj)).
Proof.
  induction obj as [|[k0 a0] obj IH]; simpl; intros Hnd; [constructor|].
  inversion Hnd as [|? ? Hnotin Hnd']; subst.
  destruct (array_index k0) as [i0|] eqn:E; simpl; [|now apply IH].
  constructor; [|now apply IH].
  intros Hin. apply in_map_iff in Hin. destruct Hin as [[i a] [Hi Hin]].
  simpl in Hi. subst i. apply In_indexed in Hin.
  destruct Hin as [k [Hin Hk]].
  apply array_index_decimal in E. apply array_index_decimal in Hk.
  apply Hnotin. apply in_map_iff. exists (k, a). split; [|assumption].
  simpl. congruence.
Qed.

Lemma insert_by_index_sorted {A : Type} (e : Z * A) (l : list (Z * A)) :
  StronglySorted (fun x y => fst x <= fst y) l ->
  StronglySorted (fun x y => fst x <= fst y) (insert_by_index e l).
Proof.
  induction 1 as [|x l Hs IH Hall]; simpl.
  - constructor; constructor.
  - destruct (Z.ltb_spec (fst e) (fst x)) as [Hlt|Hge].
    + constructor; [now constructor|].
      constructor; [lia|].
      eapply Forall_impl; [|exact Hall]. simpl. intros y Hy. lia.
    + constructor; [assumption|].
      apply (Permutation_Forall (Permutation_sym (insert_by_index_perm e l))).
      constructor; [lia|assumption].
Qed.

Lemma sort_by_index_sorted {A : Type} (l : list (Z * A)) :
  StronglySorted (fun x y => fst x <= fst y) (sort_by_index l).
Proof.
  induction l as [|x l IH]; simpl; [constructor|].
  now apply insert_by_index_sorted.
Qed.

Lemma sorted_strict {A : Type} (l : list (Z * A)) :
  StronglySorted (fun x y => fst x <= fst y) l -> NoDup (map fst l) ->
  StronglySorted (fun x y => fst x < fst y) l.
Proof.
  induction 1 as [|x l Hs IH Hall]; simpl; intros Hnd; [constructor|].
  inversion Hnd as [|? ? Hnotin Hnd']; subst.
  constructor; [now apply IH|].
  rewrite Forall_forall in *. intros y Hy.
  assert (fst x <> fst y).
  { intros E. apply Hnotin. rewrite E. now apply in_map. }
  specialize (Hall y Hy). simpl in Hall. lia.
Qed.

Lemma sorted_grupos (l : list (Z * Grupo.t)) :
  (forall i g, In (i, g) l -> array_index (Grupo.simbolo g) = Some i) ->
  StronglySorted (fun x y => fst x < fst y) l ->
  StronglySorted indice_menor (map snd l).
Proof.
  intros Hidx. induction 1 as [|[i g] l Hs IH Hall]; simpl; [constructor|].
  constructor.
  - apply IH. intros j g' Hin. apply Hidx. now right.
  - rewrite Forall_forall in *. intros g' Hg'.
    apply in_map_iff in Hg'. destruct Hg' as [[j g''] [Heq Hin]].
    simpl in Heq. subst g''.
    exists i, j. split; [apply Hidx; now left|].
    split; [apply Hidx; now right|]. exact (Hall _ Hin).
Qed.

Lemma simbolos_named (obj : list (string * Grupo.t)) :
  (forall k g, In (k, g) obj -> Grupo.simbolo g = k) ->
  map Grupo.simbolo (map snd (named obj)) = filter sin_indice (map fst obj).
Proof.
  unfold named. induction obj as [|[k g] obj IH]; simpl; intros H;
    [reflexivity|].
  unfold sin_indice at 1.
  destruct (array_index k); simpl.
  - apply IH. intros k' g' Hin. apply H. now right.
  - rewrite (H k g) by now left. f_equal.
    apply IH. intros k' g' Hin. apply H. now right.
Qed.

(** X6: the returned list is made of two runs.  First come the groups
    whose symbol reads as an array index (a decimal integer from 0 to
    2^32 - 2), by strictly ascending index, wherever their rows stand;
    then the other groups, in the order in which their symbols first
    occur in the rows. *)
Theorem grupos_con_indice_primero (rows : list Fila.t) (gs : list Grupo.t) :
  getContaminantesPorEstacionYAnio rows = Normal gs ->
  exists con_indice resto,
    gs = con_indice ++ resto /\
    StronglySorted indice_menor con_indice /\
    (forall g, In g con_indice -> sin_indice (Grupo.simbolo g) = false) /\
    map Grupo.simbolo resto
    = filter sin_indice (primeros (map Fila.simbolo rows)).
Proof.
  intros E.
  destruct (getContaminantes_agrupado rows gs E) as [obj [Hinv ->]].
  destruct Hinv as [Hk [Hg _]].
  assert (Hidx : forall i g, In (i, g) (sort_by_index (indexed obj)) ->
                             array_index (Grupo.simbolo g) = Some i).
  { intros i g Hin.
    apply (Permutation_in _ (sort_by_index_perm (indexed obj))) in Hin.
    apply In_indexed in Hin. destruct Hin as [k [Hin Hi]].
    now destruct (Hg k g Hin) as [-> _]. }
  exists (map snd (sort_by_index (indexed obj))), (map snd (named obj)).
  split; [reflexivity|]. split; [|split].
  - apply sorted_grupos; [assumption|].
    apply sorted_strict; [apply sort_by_index_sorted|].
    apply (Permutation_NoDup
             (Permutation_map fst
                (Permutation_sym (sort_by_index_perm (indexed obj))))).
    apply NoDup_indexed. rewrite Hk. apply NoDup_primeros.
  - intros g Hin. apply in_map_iff in Hin.
    destruct Hin as [[i g'] [Heq Hin]]. simpl in Heq. subst g'.
    unfold sin_indice. now rewrite (Hidx i g Hin).
  - rewrite <- Hk. apply simbolos_named.
    intros k g Hin. now destruct (Hg k g Hin).
Qed.

(** * The statistics of a pollutant: getDatosHistoricosPorContaminante

    The function awaits a query, answers [null] when it has no row, and
    otherwise assembles the response from the first row: it classifies
    the average with [clasificarCalidadAire] and converts the numeric
    columns with [parseFloat].  The model starts from [resultado.rows];
    an exception is logged by the [catch] and thrown again.

    The columns read by [parseFloat] are primitive values, the symbol is
    a string and the hours are a number; the columns that are only
    copied, among them the two dates, are of a type [Dato] that is left
    open. *)

Module Datos.
Record t (Dato : Type) : Type := {
  id_medicion : Dato;
  anio : Dato;
  promedio : JsValue;
  mediana : JsValue;
  percentil_98 : JsValue;
  maximo : JsValue;
  minimo : JsValue;
  excedencias_limite_actual : Dato;
  porcentaje_excedencias : JsValue;
  dias_excendecias : Dato;
  no_datos : Dato;
  representatividad_temporal : JsValue;
  fecha_hora_maximo : Dato;
  fecha_hora_minimo : Dato;
  id_estacion : Dato;
  nombre_estacion : Dato;
  tipo_estacion : Dato;
  id_municipio : Dato;
  nombre_municipio : Dato;
  id_variable_ambiental : Dato;
  simbolo_contaminante : string;
  unidades : Dato;
  id_exposicion : Dato;
  tiempo_horas : JsNumber;
  tiempo_exposicion_texto : Dato
}.
Arguments id_medicion {Dato} _.
Arguments anio {Dato} _.
Arguments promedio {Dato} _.
Arguments mediana {Dato} _.
Arguments percentil_98 {Dato} _.
Arguments maximo {Dato} _.
Arguments minimo {Dato} _.
Arguments excedencias_limite_actual {Dato} _.
Arguments porcentaje_excedencias {Dato} _.
Arguments dias_excendecias {Dato} _.
Arguments no_datos {Dato} _.
Arguments representatividad_temporal {Dato} _.
Arguments fecha_hora_maximo {Dato} _.
Arguments fecha_hora_minimo {Dato} _.
Arguments id_estacion {Dato} _.
Arguments nombre_estacion {Dato} _.
Arguments tipo_estacion {Dato} _.
Arguments id_municipio {Dato} _.
Arguments nombre_municipio {Dato} _.
Arguments id_variable_ambiental {Dato} _.
Arguments simbolo_contaminante {Dato} _.
Arguments unidades {Dato} _.
Arguments id_exposicion {Dato} _.
Arguments tiempo_horas {Dato} _.
Arguments tiempo_exposicion_texto {Dato} _.
End Datos.

Module Estacion.
Record t (Dato : Type) : Type := {
  nombre : Dato;
  tipo : Dato;
  municipio : Dato
}.
Arguments nombre {Dato} _.
Arguments tipo {Dato} _.
Arguments municipio {Dato} _.
End Estacion.

Module TiempoExposicion.
Record t (Dato : Type) : Type := {
  id : Dato;
  horas : JsNumber;
  texto : Dato
}.
Arguments id {Dato} _.
Arguments horas {Dato} _.
Arguments texto {Dato} _.
End TiempoExposicion.

Module Contaminante.
Record t (Dato : Type) : Type := {
  id_variable : Dato;
  simbolo : string;
  unidades : Dato;
  tiempo_exposicion : TiempoExposicion.t Dato
}.
Arguments id_variable {Dato} _.
Arguments simbolo {Dato} _.
Arguments unidades {Dato} _.
Arguments tiempo_exposicion {Dato} _.
End Contaminante.

Module Estadisticas.
Record t (Dato : Type) : Type := {
  promedio : JsNumber;
  mediana : JsNumber;
  percentil_98 : JsNumber;
  maximo : JsNumber;
  minimo : JsNumber;
  fecha_hora_maximo : Dato;
  fecha_hora_minimo : Dato
}.
Arguments promedio {Dato} _.
Arguments mediana {Dato} _.
Arguments percentil_98 {Dato} _.
Arguments maximo {Dato} _.
Arguments minimo {Dato} _.
Arguments fecha_hora_maximo {Dato} _.
Arguments fecha_hora_minimo {Dato} _.
End Estadisticas.

Module Excedencias.
Record t (Dato : Type) : Type := {
  dias_excendecias : Dato;
  excedencias_limite_actual : Dato;
  porcentaje_excedencias : JsNumber
}.
Arguments dias_excendecias {Dato} _.
Arguments excedencias_limite_actual {Dato} _.
Arguments porcentaje_excedencias {Dato} _.
End Excedencias.

Module CalidadDatos.
Record t : Type := {
  representatividad_temporal : JsNumber
}.
End CalidadDatos.

Module Respuesta.
Record t (Dato : Type) : Type := {
  estacion : Estacion.t Dato;
  anio : Dato;
  contaminante : Contaminante.t Dato;
  estadisticas : Estadisticas.t Dato;
  excedencias : Excedencias.t Dato;
  calidad_datos : CalidadDatos.t;
  clasificacion : Clasificacion
}.
Arguments estacion {Dato} _.
Arguments anio {Dato} _.
Arguments contaminante {Dato} _.
Arguments estadisticas {Dato} _.
Arguments excedencias {Dato} _.
Arguments calidad_datos {Dato} _.
Arguments clasificacion {Dato} _.
End Respuesta.

(** The columns a response converts with [parseFloat], in the order of the
    conversions. *)
Definition columnas_numericas {Dato : Type} (datos : Datos.t Dato)
  : list JsValue :=
  [ Datos.promedio datos; Datos.mediana datos; Datos.percentil_98 datos;
    Datos.maximo datos; Datos.minimo datos;
    Datos.porcentaje_excedencias datos;
    Datos.representatividad_temporal datos ].

Definition is_symbol (v : JsValue) : bool :=
  match v with
  | JsSymbol _ => true
  | _ => false
  end.

Section Historico.

Variable StringToNumber : string -> JsNumber.
Variable DigitsToString : Q -> string.

(** [parseFloat] on a string: the number written by the longest prefix
    that is a decimal numeral, after leading blanks, and NaN when there is
    none.  Its rounding is that of the host. *)
Variable parseFloatString : string -> JsNumber.

Variable Dato : Type.

(** The global [parseFloat] first converts its argument to a string, which
    throws on a Symbol.  The strings [undefined], [null], [true] and
    [false] start no numeral; the print of a number reads back as the
    number; a BigInt prints as its decimal digits. *)
Definition parseFloat (v : JsValue) : Completion JsNumber :=
  match v with
  | JsUndefined => Normal NaN
  | JsNull => Normal NaN
  | JsBoolean _ => Normal NaN
  | JsNum n => Normal n
  | JsString s => Normal (parseFloatString s)
  | JsSymbol _ => Throw TypeError
  | JsBigInt z => Normal (parseFloatString (decimal z))
  end.

Definition getDatosHistoricosPorContaminante (rows : list (Datos.t Dato))
  : Completion (option (Respuesta.t Dato)) :=
  match rows with
  | [] => Normal None
  | datos :: _ =>
      (valor <- parseFloat (Datos.promedio datos) ;;
       clasificacion <-
         clasificarCalidadAire StringToNumber DigitsToString
           (Datos.simbolo_contaminante datos) (JsNum valor)
           (Datos.tiempo_horas datos) ;;
       promedio <- parseFloat (Datos.promedio datos) ;;
       mediana <- parseFloat (Datos.mediana datos) ;;
       percentil_98 <- parseFloat (Datos.percentil_98 datos) ;;
       maximo <- parseFloat (Datos.maximo datos) ;;
       minimo <- parseFloat (Datos.minimo datos) ;;
       porcentaje_excedencias <-
         parseFloat (Datos.porcentaje_excedencias datos) ;;
       representatividad_temporal <-
         parseFloat (Datos.representatividad_temporal datos) ;;
       Normal (Some
         {| Respuesta.estacion :=
              {| Estacion.nombre := Datos.nombre_estacion datos;
                 Estacion.tipo := Datos.tipo_estacion datos;
                 Estacion.municipio := Datos.nombre_municipio datos |};
            Respuesta.anio := Datos.anio datos;
            Respuesta.contaminante :=
              {| Contaminante.id_variable := Datos.id_variable_ambiental datos;
                 Contaminante.simbolo := Datos.simbolo_contaminante datos;
                 Contaminante.unidades := Datos.unidades datos;
                 Contaminante.tiempo_exposicion :=
                   {| TiempoExposicion.id := Datos.id_exposicion datos;
                      TiempoExposicion.horas := Datos.tiempo_horas datos;
                      TiempoExposicion.texto :=
                        Datos.tiempo_exposicion_texto datos |} |};
            Respuesta.estadisticas :=
              {| Estadisticas.promedio := promedio;
                 Estadisticas.mediana := mediana;
                 Estadisticas.percentil_98 := percentil_98;
                 Estadisticas.maximo := maximo;
                 Estadisticas.minimo := minimo;
                 Estadisticas.fecha_hora_maximo :=
                   Datos.fecha_hora_maximo datos;
                 Estadisticas.fecha_hora_minimo :=
                   Datos.fecha_hora_minimo datos |};
            Respuesta.excedencias :=
              {| Excedencias.dias_excendecias := Datos.dias_excendecias datos;
                 Excedencias.excedencias_limite_actual :=
                   Datos.excedencias_limite_actual datos;
                 Excedencias.porcentaje_excedencias :=
                   porcentaje_excedencias |};
            Respuesta.calidad_datos :=
              {| CalidadDatos.representatividad_temporal :=
                   representatividad_temporal |};
            Respuesta.clasificacion := clasificacion |}))%completion
  end.

End Historico.

Section HistoricoProperties.

Variable StringToNumber : string -> JsNumber.
Variable DigitsToString : Q -> string.
Variable parseFloatString : string -> JsNumber.
Variable Dato : Type.

Local Abbreviation clasificar :=
  (clasificarCalidadAire StringToNumber DigitsToString).
Local Abbreviation getDatos :=
  (getDatosHistoricosPorContaminante StringToNumber DigitsToString
     parseFloatString Dato).
Local Abbreviation aNumero := (parseFloat parseFloatString).

Lemma parseFloat_symbol (v : JsValue) :
  is_symbol v = true -> aNumero v = Throw TypeError.
Proof. destruct v; simpl; intros H; try discriminate H; reflexivity. Qed.

Lemma parseFloat_value (v : JsValue) :
  is_symbol v = false -> exists n, aNumero v = Normal n.
Proof. destruct v; simpl; intros H; try discriminate H; eauto. Qed.

(** A number never makes the engine throw. *)
Lemma clasificar_numero_returns (c : string) (n h : JsNumber) :
  exists r, clasificar c (JsNum n) h = Normal r /\ exists t, tier r = Some t.
Proof.
  destruct (clasificar_returns StringToNumber DigitsToString c (JsNum n) h
              eq_refl) as [r [E F]].
  exists r. split; [assumption|].
  inversion F as [| |Hc| |tabla g m b1 b2 Hc Hh]; subst;
    try (now exists Unavailable).
  rewrite tier_resultado_de. eauto.
Qed.

Lemma getDatos_symbol (datos : Datos.t Dato) (resto : list (Datos.t Dato)) :
  existsb is_symbol (columnas_numericas datos) = true ->
  getDatos (datos :: resto) = Throw TypeError.
Proof.
  unfold columnas_numericas, getDatosHistoricosPorContaminante. simpl.
  destruct (is_symbol (Datos.promedio datos)) eqn:S1;
    [intros _; now rewrite (parseFloat_symbol _ S1)|].
  destruct (parseFloat_value _ S1) as [n1 ->]. simpl.
  destruct (clasificar_numero_returns (Datos.simbolo_contaminante datos) n1
              (Datos.tiempo_horas datos)) as [r [-> _]]. simpl.
  destruct (is_symbol (Datos.mediana datos)) eqn:S2;
    [intros _; now rewrite (parseFloat_symbol _ S2)|].
  destruct (parseFloat_value _ S2) as [n2 ->]. simpl.
  destruct (is_symbol (Datos.percentil_98 datos)) eqn:S3;
    [intros _; now rewrite (parseFloat_symbol _ S3)|].
  destruct (parseFloat_value _ S3) as [n3 ->]. simpl.
  destruct (is_symbol (Datos.maximo datos)) eqn:S4;
    [intros _; now rewrite (parseFloat_symbol _ S4)|].
  destruct (parseFloat_value _ S4) as [n4 ->]. simpl.
  destruct (is_symbol (Datos.minimo datos)) eqn:S5;
    [intros _; now rewrite (parseFloat_symbol _ S5)|].
  destruct (parseFloat_value _ S5) as [n5 ->]. simpl.
  destruct (is_symbol (Datos.porcentaje_excedencias datos)) eqn:S6;
    [intros _; now rewrite (parseFloat_symbol _ S6)|].
  destruct (parseFloat_value _ S6) as [n6 ->]. simpl.
  destruct (is_symbol (Datos.representatividad_temporal datos)) eqn:S7;
    [intros _; now rewrite (parseFloat_symbol _ S7)|].
  discriminate.
Qed.

Lemma getDatos_values (datos : Datos.t Dato) (resto : list (Datos.t Dato)) :
  existsb is_symbol (columnas_numericas datos) = false ->
  exists resp, getDatos (datos :: resto) = Normal (Some resp).
Proof.
  unfold columnas_numericas, getDatosHistoricosPorContaminante. simpl.
  intros H. repeat (apply orb_false_elim in H; destruct H as [? H]).
  repeat match goal with
         | S : is_symbol ?v = false |- _ =>
             destruct (parseFloat_value v S) as [? ->]; clear S
         end.
  simpl.
  match goal with
  | |- context [clasificarCalidadAire _ _ ?c (JsNum ?n) ?h] =>
      destruct (clasificar_numero_returns c n h) as [r [-> _]]
  end.
  simpl. eauto.
Qed.

(** What a response owes to its row. *)
Lemma getDatos_inv (datos : Datos.t Dato) (resto : list (Datos.t Dato))
    (resp : Respuesta.t Dato) :
  getDatos (datos :: resto) = Normal (Some resp) ->
  aNumero (Datos.promedio datos)
  = Normal (Estadisticas.promedio (Respuesta.estadisticas resp)) /\
  clasificar (Datos.simbolo_contaminante datos)
    (JsNum (Estadisticas.promedio (Respuesta.estadisticas resp)))
    (Datos.tiempo_horas datos)
  = Normal (Respuesta.clasificacion resp).
Proof.
  unfold getDatosHistoricosPorContaminante.
  destruct (aNumero (Datos.promedio datos)) as [n1|]; [|discriminate].
  simpl.
  destruct (clasificar (Datos.simbolo_contaminante datos) (JsNum n1)
              (Datos.tiempo_horas datos)) as [r|] eqn:Ec; [|discriminate].
  simpl.
  destruct (aNumero (Datos.mediana datos)); [|discriminate]. simpl.
  destruct (aNumero (Datos.percentil_98 datos)); [|discriminate]. simpl.
  destruct (aNumero (Datos.maximo datos)); [|discriminate]. simpl.
  destruct (aNumero (Datos.minimo datos)); [|discriminate]. simpl.
  destruct (aNumero (Datos.porcentaje_excedencias datos)); [|discriminate].
  simpl.
  destruct (aNumero (Datos.representatividad_temporal datos));
    [|discriminate].
  simpl. intros H. inversion H; subst resp. simpl. auto.
Qed.

(** The tier of a classified object against the two limits, NaN apart. *)
Lemma tier_resultado_limits (n : JsNumber) (g m : Z) (h : JsNumber) :
  is_NaN n = false -> g <= m ->
  (tier (resultado_de (Number_lessOrEqual n (of_Z g))
                      (Number_lessOrEqual n (of_Z m)) g m h) = Some Good
   <-> le_limit n g) /\
  (tier (resultado_de (Number_lessOrEqual n (of_Z g))
                      (Number_lessOrEqual n (of_Z m)) g m h) = Some Moderate
   <-> gt_limit n g /\ le_limit n m) /\
  (tier (resultado_de (Number_lessOrEqual n (of_Z g))
                      (Number_lessOrEqual n (of_Z m)) g m h) = Some Poor
   <-> gt_limit n m) /\
  tier (resultado_de (Number_lessOrEqual n (of_Z g))
                     (Number_lessOrEqual n (of_Z m)) g m h)
  <> Some Unavailable.
Proof.
  intros Hn Hgm. rewrite tier_resultado_de.
  pose proof (Number_lessOrEqual_true n g) as Tg.
  pose proof (Number_lessOrEqual_true n m) as Tm.
  pose proof (Number_lessOrEqual_false n g Hn) as Fg.
  pose proof (Number_lessOrEqual_false n m Hn) as Fm.
  pose proof (le_gt_limit_excl n g) as Xg.
  pose proof (le_gt_limit_excl n m) as Xm.
  pose proof (le_limit_mono n g m Hgm) as Mono.
  destruct (Number_lessOrEqual n (of_Z g)), (Number_lessOrEqual n (of_Z m));
    intuition congruence.
Qed.

(** What the function does with the rows of an answered query: null
    exactly when there is no row; an exception exactly when one of the
    seven columns converted by parseFloat is a Symbol in the first row; a
    response for any other first row. *)
Lemma desenlaces_de_las_filas (rows : list (Datos.t Dato)) :
  (getDatos rows = Normal None <-> rows = []) /\
  (getDatos rows = Throw TypeError <->
   exists datos resto,
     rows = datos :: resto /\
     existsb is_symbol (columnas_numericas datos) = true) /\
  ((exists resp, getDatos rows = Normal (Some resp)) <->
   exists datos resto,
     rows = datos :: resto /\
     existsb is_symbol (columnas_numericas datos) = false).
Proof.
  destruct rows as [|datos resto].
  - split; [tauto|]. split.
    + split; [discriminate|]. intros [d [r [H _]]]. discriminate.
    + split; [intros [resp H]; discriminate|].
      intros [d [r [H _]]]. discriminate.
  - destruct (existsb is_symbol (columnas_numericas datos)) eqn:S.
    + rewrite (getDatos_symbol datos resto S).
      split; [split; discriminate|]. split.
      * split; [|reflexivity]. intros _. now exists datos, resto.
      * split; [intros [resp H]; discriminate|].
        intros [d [r [H1 H2]]]. inversion H1; subst. congruence.
    + destruct (getDatos_values datos resto S) as [resp E]. rewrite E.
      split; [split; discriminate|]. split.
      * split; [discriminate|].
        intros [d [r [H1 H2]]]. inversion H1; subst. congruence.
      * split; [|eauto]. intros _. now exists datos, resto.
Qed.

(** X8: a response agrees with itself.  When the symbol and the hours of
    the first row are a row of the table of limits, the tier of the
    response is Unavailable exactly when the average it shows is NaN, and
    otherwise Good, Moderate or Poor as that same average stands against
    the two limits. *)
Theorem respuesta_coherente (datos : Datos.t Dato)
    (resto : list (Datos.t Dato)) (resp : Respuesta.t Dato) (k g m : Z) :
  getDatos (datos :: resto) = Normal (Some resp) ->
  In (Datos.simbolo_contaminante datos, k, g, m) entradas ->
  names_key (Datos.tiempo_horas datos) k = true ->
  (tier (Respuesta.clasificacion resp) = Some Unavailable
   <-> is_NaN (Estadisticas.promedio (Respuesta.estadisticas resp)) = true) /\
  (tier (Respuesta.clasificacion resp) = Some Good
   <-> le_limit (Estadisticas.promedio (Respuesta.estadisticas resp)) g) /\
  (tier (Respuesta.clasificacion resp) = Some Moderate
   <-> gt_limit (Estadisticas.promedio (Respuesta.estadisticas resp)) g /\
       le_limit (Estadisticas.promedio (Respuesta.estadisticas resp)) m) /\
  (tier (Respuesta.clasificacion resp) = Some Poor
   <-> gt_limit (Estadisticas.promedio (Respuesta.estadisticas resp)) m).
Proof.
  intros E Hin Hk. destruct (getDatos_inv datos resto resp E) as [_ Hc].
  destruct (entradas_ordered _ k g m Hin) as [_ Hgm].
  destruct (is_NaN (Estadisticas.promedio (Respuesta.estadisticas resp)))
    eqn:Hn.
  - destruct (Estadisticas.promedio (Respuesta.estadisticas resp));
      try discriminate Hn.
    rewrite clasificar_unfold in Hc. simpl in Hc. inversion Hc as [Hr].
    simpl. repeat split; try tauto; try discriminate; intros [].
  - rewrite (clasificar_entrada StringToNumber DigitsToString _ k g m _ _
               Hin Hk Hn) in Hc.
    inversion Hc as [Hr].
    destruct (tier_resultado_limits _ g m (Datos.tiempo_horas datos) Hn
                (Z.lt_le_incl _ _ Hgm)) as [HG [HM [HP HU]]].
    split; [|tauto]. split; [intros H; now elim HU|discriminate].
Qed.

(** X9: only three columns of the first row reach the classification: two
    answers of the query whose first rows have the same symbol, the same
    average and the same hours give responses with the same
    classification, whatever their maximum, percentile or other
    columns. *)
Theorem clasificacion_solo_del_promedio (d1 d2 : Datos.t Dato)
    (resto1 resto2 : list (Datos.t Dato)) (r1 r2 : Respuesta.t Dato) :
  getDatos (d1 :: resto1) = Normal (Some r1) ->
  getDatos (d2 :: resto2) = Normal (Some r2) ->
  Datos.simbolo_contaminante d1 = Datos.simbolo_contaminante d2 ->
  Datos.promedio d1 = Datos.promedio d2 ->
  Datos.tiempo_horas d1 = Datos.tiempo_horas d2 ->
  Respuesta.clasificacion r1 = Respuesta.clasificacion r2.
Proof.
  intros E1 E2 Hs Hp Hh.
  destruct (getDatos_inv d1 resto1 r1 E1) as [P1 C1].
  destruct (getDatos_inv d2 resto2 r2 E2) as [P2 C2].
  rewrite Hp, P2 in P1. inversion P1 as [Hprom].
  rewrite Hs, Hh, <- Hprom, C2 in C1. now inversion C1.
Qed.

(** X10: an average that is null, undefined or a boolean in the first row
    does not make the call fail.  When no column converted by parseFloat
    is a Symbol in that row, the call returns a response; the response
    shows NaN as its average and carries the classification without
    data, with the missing-value text and no limits, whatever the
    pollutant. *)
Theorem promedio_nulo_sin_datos (datos : Datos.t Dato)
    (resto : list (Datos.t Dato)) :
  Datos.promedio datos = JsNull \/ Datos.promedio datos = JsUndefined \/
  (exists b, Datos.promedio datos = JsBoolean b) ->
  existsb is_symbol (columnas_numericas datos) = false ->
  exists resp,
    getDatos (datos :: resto) = Normal (Some resp) /\
    Estadisticas.promedio (Respuesta.estadisticas resp) = NaN /\
    Respuesta.clasificacion resp = sin_datos texto_sin_valor /\
    limites_oms (Respuesta.clasificacion resp) = None.
Proof.
  intros Hp Hs. destruct (getDatos_values datos resto Hs) as [resp E].
  exists resp. split; [assumption|].
  destruct (getDatos_inv datos resto resp E) as [P C].
  assert (Hn : Estadisticas.promedio (Respuesta.estadisticas resp) = NaN).
  { destruct Hp as [Hp|[Hp|[b Hp]]]; rewrite Hp in P; simpl in P;
      now inversion P. }
  rewrite Hn in C. rewrite clasificar_unfold in C. simpl in C.
  inversion C as [Hr]. auto.
Qed.

End HistoricoProperties.

(** * The description of a level: obtenerDescripcionNivel

    [descripciones[nivel] || 'Sin descripción disponible'] on an object
    literal with four texts.  The read walks to [Object.prototype] like
    every property read, and a value found there is truthy, so it is
    returned as it is. *)

Local Open Scope string_scope.

Definition descripciones : list (string * string) :=
  [ ("Buena",
     "La calidad del aire es satisfactoria y no representa riesgo para la salud");
    ("Regular",
     "La calidad del aire es aceptable, pero puede afectar a personas sensibles");
    ("Mala",
     "La calidad del aire es mala y puede afectar la salud de la población");
    ("Sin datos", "No hay información disponible") ]%list.

(** What the function returns: a text, or the built-in value that
    [Object.prototype] has under the given name. *)
Inductive Descripcion : Type :=
| Texto (texto : string)
| ValorHeredado (name : string).

Definition sin_descripcion : string := "Sin descripción disponible".

Definition obtenerDescripcionNivel (nivel : string) : Descripcion :=
  match get_by_name descripciones nivel with
  | Own texto =>
      (* a string is falsy only when it is empty *)
      if String.eqb texto "" then Texto sin_descripcion else Texto texto
  | Inherited name => ValorHeredado name
  | Undefined => Texto sin_descripcion
  end.

Lemma nivel_de_forma (D : Q -> string) (c : string) (h : JsNumber)
    (r : Clasificacion) :
  Forma D c h (Normal r) ->
  In (nivel r) (map fst descripciones).
Proof.
  intros F.
  inversion F as [| |Hc| |tabla g m b1 b2 Hc Hh]; subst; simpl; try tauto.
  destruct b1; [|destruct b2]; simpl; tauto.
Qed.

(** X11: every level the engine returns has a description of its own:
    for the [nivel] of any returned classification the function answers
    one of the four texts of [descripciones], never the fallback text and
    never an inherited value. *)
Theorem todo_nivel_tiene_descripcion (StringToNumber : string -> JsNumber)
    (DigitsToString : Q -> string) (c : string) (v : JsValue) (h : JsNumber)
    (r : Clasificacion) :
  clasificarCalidadAire StringToNumber DigitsToString c v h = Normal r ->
  exists texto,
    obtenerDescripcionNivel (nivel r) = Texto texto /\
    In (nivel r, texto) descripciones /\
    texto <> sin_descripcion.
Proof.
  intros E.
  pose proof (clasificar_forma StringToNumber DigitsToString c v h) as F.
  rewrite E in F. apply nivel_de_forma in F. simpl in F.
  destruct F as [H|[H|[H|[H|[]]]]]; rewrite <- H;
    eexists; (split; [reflexivity|]); (split; [simpl; tauto|discriminate]).
Qed.

(** X12: the function answers a text unless the level is a property name
    of Object.prototype, for which it answers the inherited value; and
    the text is the fallback exactly for the levels that are neither one
    of the four of [descripciones] nor such a name. *)
Theorem descripcion_por_defecto (nivel : string) :
  ((exists name, obtenerDescripcionNivel nivel = ValorHeredado name)
   <-> In nivel ObjectPrototype_names) /\
  (obtenerDescripcionNivel nivel = Texto sin_descripcion
   <-> ~ In nivel (map fst descripciones) /\
       ~ In nivel ObjectPrototype_names).
Proof.
  unfold obtenerDescripcionNivel, get_by_name.
  destruct (own_by_name descripciones nivel) as [texto|] eqn:E.
  - pose proof (own_by_name_Some descripciones nivel texto E) as Hin.
    assert (Hk : In nivel (map fst descripciones)).
    { apply in_map_iff. now exists (nivel, texto). }
    assert (Hno : ~ In nivel ObjectPrototype_names).
    { simpl in Hk. destruct Hk as [H|[H|[H|[H|[]]]]]; rewrite <- H;
        simpl; intuition discriminate. }
    assert (Ht : texto <> "" /\ texto <> sin_descripcion).
    { simpl in Hin.
      destruct Hin as [H|[H|[H|[H|[]]]]]; inversion H; subst;
        split; discriminate. }
    destruct Ht as [Ht1 Ht2].
    destruct (String.eqb_spec texto "") as [->|_]; [now elim Ht1|].
    split.
    + split; [intros [name H]; discriminate|intros H; now elim Hno].
    + split; [intros H; inversion H; now elim Ht2|tauto].
  - assert (Hk : ~ In nivel (map fst descripciones)).
    { intros Hk. apply own_by_name_keys in Hk. destruct Hk as [a Ha].
      congruence. }
    destruct (existsb (String.eqb nivel) ObjectPrototype_names) eqn:Hh.
    + apply heredado_In in Hh. split.
      * split; [auto|]. intros _. now exists nivel.
      * split; [discriminate|tauto].
    + assert (Hno : ~ In nivel ObjectPrototype_names).
      { intros H. apply heredado_In in H. congruence. }
      split.
      * split; [intros [name H]; discriminate|intros H; now elim Hno].
      * split; [auto|reflexivity].
Qed.

(** * The connection: conectarPostgres and query

    The two functions talk to the [pg] library.  What the library decides
    is an input of the model: whether [pool.connect()] gives a client or
    rejects, and what [client.query] answers.  What the functions decide
    is modelled as written: the assignments to the module variable
    [pool], the [try], [catch] and [finally] blocks, and the calls made
    on the library and on the console, kept as a trace.  What is thrown
    is an [Error] with a message; [client.release()] and the console
    return. *)

(** The two [Pool] objects of the source: their options are the same
    expressions of the environment and differ in [ssl] only. *)
Inductive Pool : Type :=
| PoolSSL
| PoolSinSSL.

(** A thrown [Error], by its message. *)
Record Excepcion : Type := {
  message : string
}.

Inductive Evento : Type :=
| ClienteConectado
| ConsultaEnviada
| ClienteLiberado
| ConsolaLog
| ConsolaWarn
| ConsolaError (mensaje : string).

(** A computation reads and writes the variable [pool], leaves a trace,
    and returns or throws. *)
Definition Efecto (A : Type) : Type :=
  option Pool -> option Pool * list Evento * (Excepcion + A).

Definition ret {A : Type} (a : A) : Efecto A :=
  fun pool => (pool, []%list, inr a).

Definition throw {A : Type} (e : Excepcion) : Efecto A :=
  fun pool => (pool, []%list, inl e).

Definition emit (ev : Evento) : Efecto unit :=
  fun pool => (pool, [ev]%list, inr tt).

Definition seq {A B : Type} (m : Efecto A) (k : A -> Efecto B) : Efecto B :=
  fun pool =>
    match m pool with
    | (pool1, traza1, inl e) => (pool1, traza1, inl e)
    | (pool1, traza1, inr a) =>
        match k a pool1 with
        | (pool2, traza2, r) => (pool2, (traza1 ++ traza2)%list, r)
        end
    end.

(** [try { m } catch (err) { handler err }]. *)
Definition try_catch {A : Type} (m : Efecto A)
    (handler : Excepcion -> Efecto A) : Efecto A :=
  fun pool =>
    match m pool with
    | (pool1, traza1, inl e) =>
        match handler e pool1 with
        | (pool2, traza2, r) => (pool2, (traza1 ++ traza2)%list, r)
        end
    | done => done
    end.

(** [try { m } finally { fin }]: [fin] runs in every case, and the outcome
    is that of [m] unless [fin] itself throws. *)
Definition try_finally {A : Type} (m : Efecto A) (fin : Efecto unit)
  : Efecto A :=
  fun pool =>
    match m pool with
    | (pool1, traza1, r) =>
        match fin pool1 with
        | (pool2, traza2, inl e) => (pool2, (traza1 ++ traza2)%list, inl e)
        | (pool2, traza2, inr _) => (pool2, (traza1 ++ traza2)%list, r)
        end
    end.

(** [pool = new Pool({...})]. *)
Definition asignar_pool (p : Pool) : Efecto unit :=
  fun _ => (Some p, []%list, inr tt).

(** [await pool.connect()], given what the library decides.  Reading
    [connect] of a [pool] that was never assigned throws. *)
Definition pool_connect (resultado : Excepcion + unit) : Efecto unit :=
  fun pool =>
    match pool with
    | None =>
        (pool, []%list,
         inl {| message :=
                  "Cannot read properties of undefined (reading 'connect')" |})
    | Some _ =>
        match resultado with
        | inl e => (pool, []%list, inl e)
        | inr tt => (pool, [ClienteConectado]%list, inr tt)
        end
    end.

(** [s.includes(sub)]. *)
Fixpoint includes (s sub : string) : bool :=
  if String.prefix sub s then true
  else match s with
       | EmptyString => false
       | String _ rest => includes rest sub
       end.

Definition conectarPostgres (primero segundo : Excepcion + unit)
  : Efecto unit :=
  try_catch
    (seq (asignar_pool PoolSSL) (fun _ =>
     seq (pool_connect primero) (fun _ =>
     seq (emit ConsolaLog) (fun _ =>
     emit ClienteLiberado))))
    (fun err =>
       if includes (message err) "does not support SSL" then
         seq (emit ConsolaWarn) (fun _ =>
         seq (asignar_pool PoolSinSSL) (fun _ =>
         seq (pool_connect segundo) (fun _ =>
         seq (emit ConsolaLog) (fun _ =>
         emit ClienteLiberado))))
       else emit (ConsolaError (message err))).

Section Query.

Variable Res : Type.

(** [await client.query(text, params)], given the answer of the library. *)
Definition client_query (respuesta : Excepcion + Res) : Efecto Res :=
  fun pool =>
    match respuesta with
    | inl e => (pool, [ConsultaEnviada]%list, inl e)
    | inr res => (pool, [ConsultaEnviada]%list, inr res)
    end.

Definition query (conexion : Excepcion + unit) (respuesta : Excepcion + Res)
  : Efecto Res :=
  seq (pool_connect conexion) (fun _ =>
  try_finally
    (try_catch
       (seq (client_query respuesta) (fun res => ret res))
       (fun err => seq (emit (ConsolaError (message err)))
                       (fun _ => throw err)))
    (emit ClienteLiberado)).

End Query.

Definition cuenta (ev : Evento) (traza : list Evento) : nat :=
  List.length
    (filter (fun e => match ev, e with
                      | ClienteConectado, ClienteConectado => true
                      | ClienteLiberado, ClienteLiberado => true
                      | ConsultaEnviada, ConsultaEnviada => true
                      | _, _ => false
                      end) traza).

Definition pool_de {A : Type} (r : option Pool * list Evento * (Excepcion + A))
  : option Pool := fst (fst r).

Definition traza_de {A : Type}
    (r : option Pool * list Evento * (Excepcion + A)) : list Evento :=
  snd (fst r).

Definition valor_de {A : Type}
    (r : option Pool * list Evento * (Excepcion + A)) : Excepcion + A :=
  snd r.

(** X13: [query] hands back what the library gave and leaks no client.
    Whatever [pool.connect()] and [client.query] do, the variable [pool]
    is left as it was; the outcome is the rejection of [connect], or else
    the answer or the very error of [client.query]; the client is
    released exactly as many times as it was obtained, and when it was
    obtained the release is the last call made, after the query; an
    error is logged exactly when the query failed. *)
Theorem query_libera_el_cliente (Res : Type) (p : Pool)
    (conexion : Excepcion + unit) (respuesta : Excepcion + Res) :
  pool_de (query Res conexion respuesta (Some p)) = Some p /\
  valor_de (query Res conexion respuesta (Some p))
  = match conexion with
    | inl e => inl e
    | inr _ => respuesta
    end /\
  cuenta ClienteLiberado (traza_de (query Res conexion respuesta (Some p)))
  = cuenta ClienteConectado (traza_de (query Res conexion respuesta (Some p))) /\
  (conexion = inr tt ->
   exists antes,
     traza_de (query Res conexion respuesta (Some p))
     = (antes ++ [ClienteLiberado])%list /\
     In ConsultaEnviada antes) /\
  ((exists e, In (ConsolaError (message e))
                 (traza_de (query Res conexion respuesta (Some p))))
   <-> exists e, conexion = inr tt /\ respuesta = inl e).
Proof.
  destruct conexion as [e0|[]]; destruct respuesta as [e1|res];
    (split; [reflexivity|]); (split; [reflexivity|]);
    (split; [reflexivity|]); split; try discriminate.
  - split; [intros [e []]|intros [e [H _]]; discriminate].
  - split; [intros [e []]|intros [e [H _]]; discriminate].
  - intros _. exists [ClienteConectado; ConsultaEnviada;
                      ConsolaError (message e1)]%list.
    split; [reflexivity|]. simpl. tauto.
  - split; [intros _; now exists e1|].
    intros _. exists e1. simpl. tauto.
  - intros _. exists [ClienteConectado; ConsultaEnviada]%list.
    split; [reflexivity|]. simpl. tauto.
  - split; [|intros [e [_ H]]; discriminate].
    intros [e H]. simpl in H. destruct H as [H|[H|[H|[]]]]; discriminate.
Qed.

(** X14: the fallback of [conectarPostgres].  The variable [pool] ends as
    the pool without SSL exactly when the first [connect] was rejected
    with a message that includes [does not support SSL], and as the pool
    with SSL otherwise.  Any other rejection is logged and swallowed: a
    message is written to [console.error] exactly then, it is the
    message of that rejection, and the call returns.  The call throws
    exactly when the second [connect] of the fallback is rejected, with
    that rejection.  Every client obtained is released. *)
Theorem conectarPostgres_fallback (primero segundo : Excepcion + unit)
    (pool0 : option Pool) :
  (pool_de (conectarPostgres primero segundo pool0) = Some PoolSinSSL
   <-> exists e, primero = inl e /\
                 includes (message e) "does not support SSL" = true) /\
  (pool_de (conectarPostgres primero segundo pool0) = Some PoolSSL
   <-> ~ exists e, primero = inl e /\
                   includes (message e) "does not support SSL" = true) /\
  (forall e2,
      valor_de (conectarPostgres primero segundo pool0) = inl e2
      <-> (exists e, primero = inl e /\
                     includes (message e) "does not support SSL" = true) /\
          segundo = inl e2) /\
  (forall mensaje,
      In (ConsolaError mensaje)
         (traza_de (conectarPostgres primero segundo pool0))
      <-> exists e, primero = inl e /\
                    includes (message e) "does not support SSL" = false /\
                    mensaje = message e) /\
  ((exists e, primero = inl e /\
              includes (message e) "does not support SSL" = false) ->
   valor_de (conectarPostgres primero segundo pool0) = inr tt) /\
  cuenta ClienteLiberado (traza_de (conectarPostgres primero segundo pool0))
  = cuenta ClienteConectado (traza_de (conectarPostgres primero segundo pool0)).
Proof.
  destruct primero as [e1|[]].
  - destruct (includes (message e1) "does not support SSL") eqn:Hi.
    + assert (Hex : exists e, @inl Excepcion unit e1 = inl e /\
                              includes (message e) "does not support SSL"
                              = true) by (now exists e1).
      assert (Hno : forall P : Excepcion -> Prop,
                 ~ exists e, @inl Excepcion unit e1 = inl e /\
                             includes (message e) "does not support SSL"
                             = false /\ P e).
      { intros P [e [H1 [H2 _]]]. inversion H1; subst. congruence. }
      unfold conectarPostgres, try_catch, seq, asignar_pool, pool_connect,
        emit, pool_de, valor_de, traza_de. rewrite Hi.
      destruct segundo as [e2|[]]; simpl.
      * split; [tauto|]. split; [split; [discriminate|tauto]|].
        split.
        { intros e. split.
          - intros H. inversion H. auto.
          - intros [_ H]. now inversion H. }
        split.
        { intros m. split.
          - intros [H|[]]. discriminate.
          - intros H. elim (Hno (fun e => m = message e)). exact H. }
        split; [|reflexivity].
        intros [e [H1 H2]]. inversion H1; subst. congruence.
      * split; [tauto|]. split; [split; [discriminate|tauto]|].
        split.
        { intros e. split; [discriminate|]. intros [_ H]. discriminate. }
        split.
        { intros m. split.
          - intros [H|[H|[H|[H|[]]]]]; discriminate.
          - intros H. elim (Hno (fun e => m = message e)). exact H. }
        split; reflexivity.
    + assert (Hno : ~ exists e, @inl Excepcion unit e1 = inl e /\
                                includes (message e) "does not support SSL"
                                = true).
      { intros [e [H1 H2]]. inversion H1; subst. congruence. }
      unfold conectarPostgres, try_catch, seq, asignar_pool, pool_connect,
        emit, pool_de, valor_de, traza_de. rewrite Hi. simpl.
      split; [split; [discriminate|tauto]|]. split; [tauto|].
      split.
      { intros e. split; [discriminate|tauto]. }
      split.
      { intros m. split.
        - intros [H|[]]. inversion H. now exists e1.
        - intros [e [H1 [_ H2]]]. inversion H1; subst. now left. }
      split; reflexivity.
  - assert (Hno : ~ exists e, @inr Excepcion unit tt = inl e /\
                              includes (message e) "does not support SSL"
                              = true).
    { intros [e [H1 _]]. discriminate. }
    unfold conectarPostgres, try_catch, seq, asignar_pool, pool_connect,
      emit, pool_de, valor_de, traza_de. simpl.
    split; [split; [discriminate|tauto]|]. split; [tauto|].
    split.
    { intros e. split; [discriminate|tauto]. }
    split.
    { intros m. split.
      - intros [H|[H|[H|[]]]]; discriminate.
      - intros [e [H1 _]]. discriminate. }
    split; reflexivity.
Qed.

(** ** The awaited call of getDatosHistoricosPorContaminante

    The [try] block of the function first awaits [pool.query]; its
    [catch] logs what was thrown and throws it again.  With the answer of
    the query as an input, the awaited call ends with the error of a
    rejected query, with the TypeError of a conversion, or with what the
    function returns from the rows. *)

Inductive Rechazo : Type :=
| ConsultaRechazada (error : Excepcion)
| ErrorDeTipo.

Section HistoricoConsulta.

Variable StringToNumber : string -> JsNumber.
Variable DigitsToString : Q -> string.
Variable parseFloatString : string -> JsNumber.
Variable Dato : Type.

Definition getDatosHistoricos_con_consulta
    (resultado : Excepcion + list (Datos.t Dato))
  : Rechazo + option (Respuesta.t Dato) :=
  match resultado with
  | inl error => inl (ConsultaRechazada error)
  | inr rows =>
      match getDatosHistoricosPorContaminante StringToNumber DigitsToString
              parseFloatString Dato rows with
      | Normal respuesta => inr respuesta
      | Throw TypeError => inl ErrorDeTipo
      end
  end.

(** X7: the four outcomes of the awaited call.  It is rejected with the
    error of the query, unchanged, exactly when the query is rejected; it
    answers null exactly when the query answers no row; it throws a
    TypeError exactly when the query answers rows and one of the seven
    columns converted by parseFloat is a Symbol in the first row; for any
    other first row (a null, a string that is no numeral or a BigInt
    among its columns) it returns a response. *)
Theorem historico_desenlaces (resultado : Excepcion + list (Datos.t Dato)) :
  (forall error,
      getDatosHistoricos_con_consulta resultado
      = inl (ConsultaRechazada error)
      <-> resultado = inl error) /\
  (getDatosHistoricos_con_consulta resultado = inr None
   <-> resultado = inr []%list) /\
  (getDatosHistoricos_con_consulta resultado = inl ErrorDeTipo
   <-> exists datos resto,
         resultado = inr (datos :: resto)%list /\
         existsb is_symbol (columnas_numericas datos) = true) /\
  ((exists resp, getDatosHistoricos_con_consulta resultado = inr (Some resp))
   <-> exists datos resto,
         resultado = inr (datos :: resto)%list /\
         existsb is_symbol (columnas_numericas datos) = false).
Proof.
  destruct resultado as [error0|rows]; simpl.
  - split; [|split; [|split]].
    + intros error. split; intros H; now inversion H.
    + split; discriminate.
    + split; [discriminate|]. intros [d [r [H _]]]. discriminate.
    + split; [intros [resp H]; discriminate|].
      intros [d [r [H _]]]. discriminate.
  - destruct (desenlaces_de_las_filas StringToNumber DigitsToString
                parseFloatString Dato rows) as [Hnull [Hthrow Hresp]].
    destruct (getDatosHistoricosPorContaminante StringToNumber
                DigitsToString parseFloatString Dato rows)
      as [[resp|]|[]] eqn:E.
    + split; [intros error; split; discriminate|].
      split.
      { split; [discriminate|]. intros H. inversion H; subst rows.
        apply proj2 in Hnull. specialize (Hnull eq_refl). discriminate. }
      split.
      { split; [discriminate|]. intros [d [r [H1 H2]]].
        inversion H1; subst rows.
        assert (Ht : @Throw (option (Respuesta.t Dato)) TypeError
                     = Normal (Some resp)).
        { rewrite <- (proj2 Hthrow); [reflexivity|]. now exists d, r. }
        discriminate Ht. }
      split.
      * intros _. destruct (proj1 Hresp) as [d [r [H1 H2]]];
          [now exists resp|]. exists d, r. now subst rows.
      * intros _. now exists resp.
    + split; [intros error; split; discriminate|].
      split.
      { split; [intros _|reflexivity]. f_equal. now apply Hnull. }
      split.
      { split; [discriminate|]. intros [d [r [H1 H2]]].
        inversion H1; subst rows.
        assert (Ht : @Throw (option (Respuesta.t Dato)) TypeError
                     = Normal None).
        { rewrite <- (proj2 Hthrow); [reflexivity|]. now exists d, r. }
        discriminate Ht. }
      split; [intros [resp H]; discriminate|].
      intros [d [r [H1 H2]]]. inversion H1; subst rows.
      destruct (proj2 Hresp) as [resp Hr]; [now exists d, r|]. discriminate.
    + split; [intros error; split; discriminate|].
      split.
      { split; [discriminate|]. intros H. inversion H; subst rows.
        apply proj2 in Hnull. specialize (Hnull eq_refl). discriminate. }
      split.
      { split; [intros _|reflexivity].
        destruct (proj1 Hthrow eq_refl) as [d [r [H1 H2]]].
        exists d, r. now subst rows. }
      split; [intros [resp H]; discriminate|].
      intros [d [r [H1 H2]]]. inversion H1; subst rows.
      destruct (proj2 Hresp) as [resp Hr]; [now exists d, r|]. discriminate.
Qed.

End HistoricoConsulta.

(** ** Closed examples for the other functions *)

Definition fila_ejemplo (simbolo : string) (id_exposicion horas : Z) : Fila.t :=
  {| Fila.id_variable_ambiental := JsNull;
     Fila.simbolo := simbolo;
     Fila.unidades := JsString "µg/m³";
     Fila.id_exposicion := JsNum (of_Z id_exposicion);
     Fila.tiempo_horas := JsNum (of_Z horas);
     Fila.tiempo_exposicion_texto := JsNull |}.

(** Rows sorted by symbol and hours, as the query gives them. *)
Definition filas_ejemplo : list Fila.t :=
  [ fila_ejemplo "O3" 11 1; fila_ejemplo "O3" 12 8;
    fila_ejemplo "PM10" 21 24; fila_ejemplo "SO2" 31 3 ]%list.

(** Rows with two symbols that read as array indices. *)
Definition filas_con_indices : list Fila.t :=
  [ fila_ejemplo "PM10" 21 24; fila_ejemplo "10" 41 1;
    fila_ejemplo "O3" 11 1; fila_ejemplo "2" 51 1;
    fila_ejemplo "PM10" 22 1 ]%list.

Definition medicion_ejemplo (simbolo : string) (promedio maximo : JsValue)
    (horas : Z) : Datos.t JsValue :=
  {| Datos.id_medicion := JsNull;
     Datos.anio := JsNum (of_Z 2019);
     Datos.promedio := promedio;
     Datos.mediana := JsNum (of_Z 18);
     Datos.percentil_98 := JsNum (of_Z 40);
     Datos.maximo := maximo;
     Datos.minimo := JsNum (of_Z 2);
     Datos.excedencias_limite_actual := JsNull;
     Datos.porcentaje_excedencias := JsNull;
     Datos.dias_excendecias := JsNull;
     Datos.no_datos := JsNull;
     Datos.representatividad_temporal := JsNum (of_Z 90);
     Datos.fecha_hora_maximo := JsNull;
     Datos.fecha_hora_minimo := JsNull;
     Datos.id_estacion := JsNull;
     Datos.nombre_estacion := JsNull;
     Datos.tipo_estacion := JsNull;
     Datos.id_municipio := JsNull;
     Datos.nombre_municipio := JsNull;
     Datos.id_variable_ambiental := JsNull;
     Datos.simbolo_contaminante := simbolo;
     Datos.unidades := JsNull;
     Datos.id_exposicion := JsNull;
     Datos.tiempo_horas := of_Z horas;
     Datos.tiempo_exposicion_texto := JsNull |}.

Definition getDatos_ejemplo
  : list (Datos.t JsValue) -> Completion (option (Respuesta.t JsValue)) :=
  getDatosHistoricosPorContaminante StringToNumber_enteros
    DigitsToString_fraccion StringToNumber_enteros JsValue.

Lemma filas_ejemplo_sin_heredados (r : Fila.t) :
  In r filas_ejemplo -> ~ In (Fila.simbolo r) ObjectPrototype_names.
Proof.
  intros [<-|[<-|[<-|[<-|[]]]]]; simpl; intuition discriminate.
Qed.

Lemma un_grupo_por_simbolo_witness :
  exists gs,
    getContaminantesPorEstacionYAnio filas_ejemplo = Normal gs /\
    NoDup (map Grupo.simbolo gs) /\
    (forall s, In s (map Grupo.simbolo gs)
               <-> In s (map Fila.simbolo filas_ejemplo)).
Proof.
  apply (un_grupo_por_simbolo filas_ejemplo).
  exact filas_ejemplo_sin_heredados.
Defined.

Lemma grupo_reune_sus_filas_witness :
  exists gs g,
    getContaminantesPorEstacionYAnio filas_ejemplo = Normal gs /\
    In g gs /\
    Grupo.simbolo g = "O3" /\
    Grupo.tiempos_exposicion g
    = map tiempo_de (filter (mismo_simbolo (Grupo.simbolo g)) filas_ejemplo) /\
    Grupo.tiempos_exposicion g <> []%list /\
    exists r0,
      find (mismo_simbolo (Grupo.simbolo g)) filas_ejemplo = Some r0 /\
      Grupo.id_variable_ambiental g = Fila.id_variable_ambiental r0 /\
      Grupo.unidades g = Fila.unidades r0.
Proof.
  do 2 eexists.
  split; [reflexivity|]. split; [left; reflexivity|].
  split; [reflexivity|].
  eapply (grupo_reune_sus_filas filas_ejemplo).
  - reflexivity.
  - left. reflexivity.
Defined.

Lemma ninguna_fila_se_pierde_witness :
  exists gs,
    getContaminantesPorEstacionYAnio filas_con_indices = Normal gs /\
    Permutation (tiempos_con_simbolo gs)
      (map (fun r => (Fila.simbolo r, tiempo_de r)) filas_con_indices).
Proof.
  eexists. split; [reflexivity|].
  apply (ninguna_fila_se_pierde filas_con_indices).
  reflexivity.
Defined.

Lemma grupos_en_orden_de_aparicion_witness :
  exists gs,
    getContaminantesPorEstacionYAnio filas_ejemplo = Normal gs /\
    map Grupo.simbolo gs = ["O3"; "PM10"; "SO2"]%list /\
    map Grupo.simbolo gs = primeros (map Fila.simbolo filas_ejemplo).
Proof.
  eexists. split; [reflexivity|]. split; [reflexivity|].
  apply (grupos_en_orden_de_aparicion filas_ejemplo).
  - reflexivity.
  - intros r [<-|[<-|[<-|[<-|[]]]]]; reflexivity.
Defined.

Lemma grupos_con_indice_primero_witness :
  exists gs,
    getContaminantesPorEstacionYAnio filas_con_indices = Normal gs /\
    map Grupo.simbolo gs = ["2"; "10"; "PM10"; "O3"]%list /\
    exists con_indice resto,
      gs = (con_indice ++ resto)%list /\
      StronglySorted indice_menor con_indice /\
      (forall g, In g con_indice -> sin_indice (Grupo.simbolo g) = false) /\
      map Grupo.simbolo resto
      = filter sin_indice (primeros (map Fila.simbolo filas_con_indices)).
Proof.
  eexists. split; [reflexivity|]. split; [reflexivity|].
  apply (grupos_con_indice_primero filas_con_indices).
  reflexivity.
Defined.

(** PM2.5 over 24 hours with an average of 20.5. *)
Lemma respuesta_coherente_witness :
  exists resp,
    getDatos_ejemplo
      [medicion_ejemplo "PM2.5" (JsNum (Finite (41 # 2))) (JsNum (of_Z 90)) 24]
    = Normal (Some resp) /\
    Estadisticas.promedio (Respuesta.estadisticas resp) = Finite (41 # 2) /\
    (tier (Respuesta.clasificacion resp) = Some Unavailable
     <-> is_NaN (Estadisticas.promedio (Respuesta.estadisticas resp)) = true) /\
    (tier (Respuesta.clasificacion resp) = Some Good
     <-> le_limit (Estadisticas.promedio (Respuesta.estadisticas resp)) 15) /\
    (tier (Respuesta.clasificacion resp) = Some Moderate
     <-> gt_limit (Estadisticas.promedio (Respuesta.estadisticas resp)) 15 /\
         le_limit (Estadisticas.promedio (Respuesta.estadisticas resp)) 25) /\
    (tier (Respuesta.clasificacion resp) = Some Poor
     <-> gt_limit (Estadisticas.promedio (Respuesta.estadisticas resp)) 25).
Proof.
  eexists. split; [reflexivity|]. split; [reflexivity|].
  apply (respuesta_coherente StringToNumber_enteros DigitsToString_fraccion
           StringToNumber_enteros JsValue
           (medicion_ejemplo "PM2.5" (JsNum (Finite (41 # 2)))
              (JsNum (of_Z 90)) 24)
           []%list _ 24 15 25).
  - reflexivity.
  - simpl. tauto.
  - reflexivity.
Defined.

(** Two rows that differ in their maximum only. *)
Lemma clasificacion_solo_del_promedio_witness :
  exists r1 r2,
    getDatos_ejemplo
      [medicion_ejemplo "NO2" (JsNum (of_Z 30)) (JsNum (of_Z 35)) 24]
    = Normal (Some r1) /\
    getDatos_ejemplo
      [medicion_ejemplo "NO2" (JsNum (of_Z 30)) (JsNum (of_Z 900)) 24]
    = Normal (Some r2) /\
    Respuesta.clasificacion r1 = Respuesta.clasificacion r2.
Proof.
  do 2 eexists. split; [reflexivity|]. split; [reflexivity|].
  apply (clasificacion_solo_del_promedio StringToNumber_enteros
           DigitsToString_fraccion StringToNumber_enteros JsValue
           (medicion_ejemplo "NO2" (JsNum (of_Z 30)) (JsNum (of_Z 35)) 24)
           (medicion_ejemplo "NO2" (JsNum (of_Z 30)) (JsNum (of_Z 900)) 24)
           []%list []%list);
    reflexivity.
Defined.

(** A row whose average is NULL in the database. *)
Lemma promedio_nulo_sin_datos_witness :
  exists resp,
    getDatos_ejemplo [medicion_ejemplo "SO2" JsNull (JsNum (of_Z 90)) 24]
    = Normal (Some resp) /\
    Estadisticas.promedio (Respuesta.estadisticas resp) = NaN /\
    Respuesta.clasificacion resp = sin_datos texto_sin_valor /\
    limites_oms (Respuesta.clasificacion resp) = None.
Proof.
  apply (promedio_nulo_sin_datos StringToNumber_enteros
           DigitsToString_fraccion StringToNumber_enteros JsValue
           (medicion_ejemplo "SO2" JsNull (JsNum (of_Z 90)) 24) []%list).
  - left. reflexivity.
  - reflexivity.
Defined.

Lemma todo_nivel_tiene_descripcion_witness :
  exists r texto,
    clasificar_ejemplo "CO" (JsNum (of_Z 12000)) (of_Z 8) = Normal r /\
    nivel r = "Mala" /\
    obtenerDescripcionNivel (nivel r) = Texto texto /\
    In (nivel r, texto) descripciones /\
    texto <> sin_descripcion.
Proof.
  eexists.
  assert (H := todo_nivel_tiene_descripcion StringToNumber_enteros
                 DigitsToString_fraccion "CO" (JsNum (of_Z 12000)) (of_Z 8)
                 _ eq_refl).
  destruct H as [texto H]. exists texto.
  split; [reflexivity|]. split; [reflexivity|]. exact H.
Defined.
